(** * carsim_service/carsim.py: connection supervisor of the car simulator

    A shallow embedding of [carsim_service/carsim.py] and the properties of
    its connection-state supervisor.

    The Python object [CarSim] is a record of its attributes.  Methods are
    computations in a state-and-exception monad over a [world]: the object,
    the history of RPCs issued through the collector stub (with what the
    broker answered), the log records emitted and the time spent sleeping.
    The data broker is outside the program; it is a [CollectorStub], a pair of
    functions that answer the n-th RPC with a reply or with an exception. *)

From Stdlib Require Import ZArith Floats.
From stdpp Require Import gmap strings list.

Open Scope Z_scope.

(** ** The gRPC types the service uses *)

Module grpc.

(** [grpc.StatusCode] *)
Inductive StatusCode :=
| OK | CANCELLED | UNKNOWN | INVALID_ARGUMENT | DEADLINE_EXCEEDED
| NOT_FOUND | ALREADY_EXISTS | PERMISSION_DENIED | RESOURCE_EXHAUSTED
| FAILED_PRECONDITION | ABORTED | OUT_OF_RANGE | UNIMPLEMENTED
| INTERNAL | UNAVAILABLE | DATA_LOSS | UNAUTHENTICATED.

(** [grpc.ChannelConnectivity] *)
Inductive ChannelConnectivity :=
| IDLE | CONNECTING | READY | TRANSIENT_FAILURE | SHUTDOWN.

(** [grpc.RpcError], with what [e.code()] and [e.details()] return. *)
Record RpcError := { code : StatusCode; details : string }.

(** [grpc.Channel]: all the service does with it is to close it. *)
Record Channel := { closed : bool }.

End grpc.

#[global] Instance StatusCode_eq_dec : EqDecision grpc.StatusCode.
Proof. solve_decision. Defined.

#[global] Instance ChannelConnectivity_eq_dec : EqDecision grpc.ChannelConnectivity.
Proof. solve_decision. Defined.

(** ** The messages of [sdv.databroker.v1] *)

(** [types_pb2.DataType], the scalar types. *)
Inductive DataType :=
| STRING | BOOL | INT8 | INT16 | INT32 | INT64
| UINT8 | UINT16 | UINT32 | UINT64 | FLOAT | DOUBLE | TIMESTAMP.

(** [types_pb2.ChangeType] *)
Inductive ChangeType := STATIC | ON_CHANGE | CONTINUOUS.

Record RegistrationMetadata := {
  name : string;
  data_type : DataType;
  description : string;
  change_type : ChangeType
}.

(** [request.list] is the repeated field of the request. *)
Record RegisterDatapointsRequest := { reg_list : list RegistrationMetadata }.

(** [response.results] maps a registered name to its identifier (int32). *)
Record RegisterDatapointsReply := { results : gmap string Z }.

(** A datapoint of an update; the service only sets [float_value]. *)
Inductive Datapoint := float_value (v : float).

Record UpdateDatapointsRequest := { datapoints : gmap Z Datapoint }.

(** The reply to an update; the service ignores it. *)
Record UpdateDatapointsReply := { errors : gmap Z Z }.

(** Indexing a protobuf scalar map: a key that is absent reads as the
    default value of the value type, here 0. *)
Definition results_getitem (response : RegisterDatapointsReply) (key : string) : Z :=
  default 0 (results response !! key).

(** ** Exceptions and outcomes *)

Inductive exception :=
| RpcError (e : grpc.RpcError)      (* grpc.RpcError *)
| KeyError (key : string)           (* a dict indexed at a missing key *)
| AttributeError (attr : string)    (* an attribute read before it is set *)
| OtherException (what : string).   (* any other subclass of Exception *)

Inductive outcome (A : Type) :=
| Returns (a : A)
| Raises (e : exception).

Arguments Returns {A} a.
Arguments Raises {A} e.

(** The TypeError of [await] applied to a value that is not awaitable. *)
Definition TypeError : exception := OtherException "TypeError".

(** ** The collector stub

    [RegisterDatapoints n request] is what the broker does with [request]
    when [n] RPCs were issued before it; likewise [UpdateDatapoints]. *)

Record CollectorStub := {
  RegisterDatapoints : nat -> RegisterDatapointsRequest -> outcome RegisterDatapointsReply;
  UpdateDatapoints : nat -> UpdateDatapointsRequest -> outcome UpdateDatapointsReply
}.

Inductive rpc_call :=
| CallRegisterDatapoints (request : RegisterDatapointsRequest)
                         (answer : outcome RegisterDatapointsReply)
| CallUpdateDatapoints (request : UpdateDatapointsRequest)
                       (answer : outcome UpdateDatapointsReply).

(** ** The object and its world *)

Record CarSim := mkCarSim {
  _ids : gmap string Z;
  _connected : bool;
  _registered : bool;
  _shutdown : bool;
  _channel : option grpc.Channel   (* None until connect_to_databroker sets it *)
}.

Inductive log_level := DEBUG | INFO | WARNING | ERROR.

Record world := mkWorld {
  self : CarSim;
  calls : list rpc_call;                (* oldest first *)
  logged : list (log_level * string);   (* oldest first; level and format *)
  slept : Z                             (* milliseconds spent in time.sleep *)
}.

(** [CarSim.__init__], before the connector thread has run. *)
Definition __init__ : CarSim :=
  {| _ids := ∅; _connected := false; _registered := false;
     _shutdown := false; _channel := None |}.

Definition start : world :=
  {| self := __init__; calls := []; logged := []; slept := 0 |}.

Definition set_ids (ids : gmap string Z) (o : CarSim) : CarSim :=
  {| _ids := ids; _connected := _connected o; _registered := _registered o;
     _shutdown := _shutdown o; _channel := _channel o |}.

Definition set_connected (b : bool) (o : CarSim) : CarSim :=
  {| _ids := _ids o; _connected := b; _registered := _registered o;
     _shutdown := _shutdown o; _channel := _channel o |}.

Definition set_registered (b : bool) (o : CarSim) : CarSim :=
  {| _ids := _ids o; _connected := _connected o; _registered := b;
     _shutdown := _shutdown o; _channel := _channel o |}.

Definition set_channel (c : grpc.Channel) (o : CarSim) : CarSim :=
  {| _ids := _ids o; _connected := _connected o; _registered := _registered o;
     _shutdown := _shutdown o; _channel := Some c |}.

(** ** The monad of methods *)

Definition M (A : Type) : Type := world -> outcome A * world.

#[global] Instance M_ret : MRet M := fun A a w => (Returns a, w).

#[global] Instance M_bind : MBind M := fun A B f m w =>
  match m w with
  | (Returns a, w') => f a w'
  | (Raises e, w') => (Raises e, w')
  end.

Definition raise {A} (e : exception) : M A := fun w => (Raises e, w).

Definition pass : M unit := mret tt.

(** [try: body except ... as e: handler e]; what [body] did before it
    raised stays done. *)
Definition try_except {A} (body : M A) (handler : exception -> M A) : M A :=
  fun w =>
    match body w with
    | (Returns a, w') => (Returns a, w')
    | (Raises e, w') => handler e w'
    end.

Definition get {A} (field : CarSim -> A) : M A := fun w => (Returns (field (self w)), w).

Definition update (f : CarSim -> CarSim) : M unit := fun w =>
  (Returns tt,
   {| self := f (self w); calls := calls w; logged := logged w; slept := slept w |}).

Definition log (level : log_level) (format : string) : M unit := fun w =>
  (Returns tt,
   {| self := self w; calls := calls w;
      logged := logged w ++ [(level, format)]; slept := slept w |}).

Definition sleep (ms : Z) : M unit := fun w =>
  (Returns tt,
   {| self := self w; calls := calls w; logged := logged w; slept := slept w + ms |}).

Definition record_call {A} (c : rpc_call) (answer : outcome A) : M A := fun w =>
  (answer,
   {| self := self w; calls := calls w ++ [c]; logged := logged w; slept := slept w |}).

(** ** The failure classifier *)

(** [is_grpc_fatal_error] *)
Definition is_grpc_fatal_error (e : grpc.RpcError) : M bool :=
  if bool_decide (grpc.code e = grpc.UNAVAILABLE)
     || bool_decide (grpc.code e = grpc.UNKNOWN)
     || bool_decide (grpc.code e = grpc.UNAUTHENTICATED)
     || bool_decide (grpc.code e = grpc.INTERNAL)
  then log ERROR "Feeding aborted due to RpcError(%s, '%s')";; mret true
  else log WARNING "Unhandled RpcError(%s, '%s')";; mret false.

(** ** The methods of [CarSim] *)

Section Methods.

Variable _stub : CollectorStub.

(** [self._stub.RegisterDatapoints(request, metadata=self._metadata)] *)
Definition stub_RegisterDatapoints (request : RegisterDatapointsRequest)
  : M RegisterDatapointsReply := fun w =>
  let answer := RegisterDatapoints _stub (length (calls w)) request in
  record_call (CallRegisterDatapoints request answer) answer w.

(** [self._stub.UpdateDatapoints(request, metadata=self._metadata)] *)
Definition stub_UpdateDatapoints (request : UpdateDatapointsRequest)
  : M UpdateDatapointsReply := fun w =>
  let answer := UpdateDatapoints _stub (length (calls w)) request in
  record_call (CallUpdateDatapoints request answer) answer w.

(** [_register] *)
Definition _register (name : string) (data_type : DataType) (change_type : ChangeType)
  : M unit :=
  let registration_metadata :=
    {| name := name; data_type := data_type; description := EmptyString;
       change_type := change_type |} in
  let request := {| reg_list := [] ++ [registration_metadata] |} in
  response ← stub_RegisterDatapoints request;
  ids ← get _ids;
  update (set_ids (<[name := results_getitem response name]> ids)).

(** [register] *)
Definition register (name : string) (data_type : DataType) (change_type : ChangeType)
  : M unit :=
  _register name data_type change_type.

(** [register_datapoints] *)
Definition register_datapoints : M unit :=
  log INFO "Try register datapoints";;
  register "Vehicle.Speed" FLOAT CONTINUOUS;;
  register "Vehicle.Acceleration" FLOAT CONTINUOUS.

(** [on_broker_connectivity_change] *)
Definition on_broker_connectivity_change (connectivity : grpc.ChannelConnectivity)
  : M unit :=
  log INFO "[%s] Connectivity changed to: %s";;
  if bool_decide (connectivity = grpc.READY)
     || bool_decide (connectivity = grpc.IDLE)
  then
    connected ← get _connected;
    if negb connected then
      log INFO "Connected to data broker";;
      try_except
        (register_datapoints;;
         log INFO "datapoints are registered.";;
         update (set_registered true))
        (fun exc =>
           match exc with
           | RpcError err =>
               log ERROR "Failed to register datapoints";;
               is_grpc_fatal_error err;;
               pass
           | _ => log ERROR "Failed to register datapoints"
           end);;
      update (set_connected true)
    else pass
  else
    connected ← get _connected;
    (if (connected : bool) then log INFO "Disconnected from data broker"
     else if bool_decide (connectivity = grpc.CONNECTING)
          then log INFO "Trying to connect to data broker"
          else pass : M unit);;
    update (set_connected false);;
    update (set_registered false).

(** The body of the [while] loop of [_run]. *)
Definition _run_body : M unit :=
  connected ← get _connected;
  if negb connected then sleep 200
  else
    registered ← get _registered;
    if negb registered then
      try_except
        (log DEBUG "Try to register datapoints";;
         register_datapoints;;
         update (set_registered true))
        (fun exc =>
           match exc with
           | RpcError err =>
               is_grpc_fatal_error err;;
               log DEBUG "Failed to register datapoints";;
               sleep 3000
           | _ =>
               log ERROR "Failed to register datapoints";;
               sleep 1000
           end)
    else sleep 1000.

(** How a bounded run of the loop ended. *)
Inductive loop_end := Exited | StillRunning.

(** [_run], for at most [fuel] iterations. *)
Fixpoint _run (fuel : nat) : M loop_end :=
  match fuel with
  | O => mret StillRunning
  | S fuel' =>
      shutdown ← get _shutdown;
      if (shutdown : bool) then mret Exited
      else _run_body;; _run fuel'
  end.

(** [connect_to_databroker]; the subscription makes the transport call
    [on_broker_connectivity_change] later on. *)
Definition connect_to_databroker (fuel : nat) : M loop_end :=
  log INFO "Connecting to Data Broker [%s]";;
  update (set_channel {| grpc.closed := false |});;
  log INFO "Using gRPC metadata: %s";;
  _run fuel.

(** [close]. The channel is the synchronous one of [grpc.insecure_channel]:
    [self._channel.close()] closes it and returns None, and the [await] of
    that None raises TypeError. *)
Definition close : M unit :=
  channel ← get _channel;
  match channel with
  | None => raise (AttributeError "_channel")
  | Some _ =>
      update (set_channel {| grpc.closed := true |});;
      raise TypeError
  end.

(** [set_float_datapoint] *)
Definition set_float_datapoint (name : string) (value : float) : M unit :=
  ids ← get _ids;
  match ids !! name with
  | None => raise (KeyError name)
  | Some _id =>
      let request := {| datapoints := <[_id := float_value value]> ∅ |} in
      try_except
        (log INFO " Feeding '%s' with value %s";;
         stub_UpdateDatapoints request;;
         pass)
        (fun exc =>
           match exc with
           | RpcError err =>
               log WARNING "Feeding %s failed";;
               fatal ← is_grpc_fatal_error err;
               update (set_connected fatal);;
               raise exc
           | _ => raise exc
           end)
  end.

End Methods.

(** ** Runs of the program

    What can happen to the object: the transport notifies a change of
    connectivity, the supervisor loop makes one iteration, a caller publishes
    a value, a caller closes the channel. *)

Inductive action :=
| Notify (connectivity : grpc.ChannelConnectivity)
| Iterate
| Publish (name : string) (value : float)
| Close.

Definition perform (stub : CollectorStub) (a : action) : M unit :=
  match a with
  | Notify connectivity => on_broker_connectivity_change stub connectivity
  | Iterate => _run_body stub
  | Publish name value => set_float_datapoint stub name value
  | Close => close
  end.

(** The world after a sequence of actions; an exception that an action
    raises goes to its caller and the run goes on. *)
Fixpoint run (stub : CollectorStub) (acts : list action) (w : world) : world :=
  match acts with
  | [] => w
  | a :: rest => run stub rest (snd (perform stub a w))
  end.

(** The actions of the handler and of the supervisor loop. *)
Definition supervising (a : action) : Prop :=
  match a with
  | Notify _ | Iterate => True
  | Publish _ _ | Close => False
  end.



(** The states in which the handler takes the broker as connected. *)
Definition ready (connectivity : grpc.ChannelConnectivity) : Prop :=
  connectivity = grpc.READY \/ connectivity = grpc.IDLE.

(** The two requests of [register_datapoints]. *)
Definition request_for (name : string) : RegisterDatapointsRequest :=
  {| reg_list := [ {| name := name; data_type := FLOAT; description := EmptyString;
                      change_type := CONTINUOUS |} ] |}.

(** A registration completed within [cs]: both requests were sent, one
    after the other, and both were answered with a reply. *)
Definition registration_completed (cs : list rpc_call) : Prop :=
  exists before r1 r2 after,
    cs = before
         ++ [CallRegisterDatapoints (request_for "Vehicle.Speed") (Returns r1);
             CallRegisterDatapoints (request_for "Vehicle.Acceleration") (Returns r2)]
         ++ after.

(** The attributes that a registration leaves alone. *)
Definition same_flags (o o' : CarSim) : Prop :=
  _connected o' = _connected o /\ _registered o' = _registered o
  /\ _shutdown o' = _shutdown o /\ _channel o' = _channel o.

(** In the run of [acts] from [w0] the object went from unconnected to a
    ready state at some notification, no notification since then reported
    another state, and the RPCs issued from that notification on satisfy
    [done]. *)
Definition entered_ready (stub : CollectorStub) (w0 : world) (acts : list action)
    (done : list rpc_call -> Prop) : Prop :=
  exists earlier connectivity later,
    acts = earlier ++ Notify connectivity :: later
    /\ ready connectivity
    /\ _connected (self (run stub earlier w0)) = false
    /\ Forall (fun a => forall c, a = Notify c -> ready c) later
    /\ exists cs,
         calls (run stub acts w0) = calls (run stub earlier w0) ++ cs /\ done cs.

(** The codes that the specification calls fatal. *)
Definition fatal_codes : list grpc.StatusCode :=
  [grpc.UNAVAILABLE; grpc.UNKNOWN; grpc.UNAUTHENTICATED; grpc.INTERNAL].

(** ** Brokers and worlds for the examples *)

Definition reply_1_2 : RegisterDatapointsReply :=
  {| results := <["Vehicle.Acceleration" := 2]> (<["Vehicle.Speed" := 1]> ∅) |}.

Definition no_errors : UpdateDatapointsReply := {| errors := ∅ |}.

Definition rpc_error (c : grpc.StatusCode) : exception :=
  RpcError {| grpc.code := c; grpc.details := EmptyString |}.

(** A broker that accepts everything. *)
Definition broker_up : CollectorStub :=
  {| RegisterDatapoints := fun _ _ => Returns reply_1_2;
     UpdateDatapoints := fun _ _ => Returns no_errors |}.

(** A broker that answers the first RPC and is unavailable from then on. *)
Definition broker_gone_after_first : CollectorStub :=
  {| RegisterDatapoints := fun n _ =>
       match n with O => Returns reply_1_2 | S _ => Raises (rpc_error grpc.UNAVAILABLE) end;
     UpdateDatapoints := fun _ _ => Raises (rpc_error grpc.UNAVAILABLE) |}.

(** A broker that registers and then fails every update with [c]. *)
Definition broker_rejecting_updates (c : grpc.StatusCode) : CollectorStub :=
  {| RegisterDatapoints := fun _ _ => Returns reply_1_2;
     UpdateDatapoints := fun _ _ => Raises (rpc_error c) |}.

(** A broker that fails every RPC as unavailable. *)
Definition broker_down : CollectorStub :=
  {| RegisterDatapoints := fun _ _ => Raises (rpc_error grpc.UNAVAILABLE);
     UpdateDatapoints := fun _ _ => Raises (rpc_error grpc.UNAVAILABLE) |}.

(** A broker that is unavailable for the first [k] RPCs and accepts
    everything from then on. *)
Definition broker_down_until (k : nat) : CollectorStub :=
  {| RegisterDatapoints := fun n _ =>
       if (n <? k)%nat then Raises (rpc_error grpc.UNAVAILABLE) else Returns reply_1_2;
     UpdateDatapoints := fun n _ =>
       if (n <? k)%nat then Raises (rpc_error grpc.UNAVAILABLE) else Returns no_errors |}.

(** The pause of the loop after a registration that raised [e]. *)
Definition backoff (e : exception) : Z :=
  match e with
  | RpcError _ => 3000
  | _ => 1000
  end.

(** A broker that is unavailable for the RPCs from the [from]-th up to, and
    not including, the [till]-th, and accepts every other one. *)
Definition broker_outage (from till : nat) : CollectorStub :=
  {| RegisterDatapoints := fun n _ =>
       if (from <=? n)%nat && (n <? till)%nat
       then Raises (rpc_error grpc.UNAVAILABLE) else Returns reply_1_2;
     UpdateDatapoints := fun n _ =>
       if (from <=? n)%nat && (n <? till)%nat
       then Raises (rpc_error grpc.UNAVAILABLE) else Returns no_errors |}.

(** ** The loop body in two steps

    The loop and the handler run on two threads and the object has no lock:
    the handler can run between two statements of the loop body.  The body
    is cut at the one place where that matters, after the call of
    [register_datapoints] of line 119 has returned and before line 120
    assigns [_registered]. *)

(** The body up to the return of [register_datapoints]; the answer is true
    when the call returned and line 120 comes next, false when the iteration
    is over. *)
Definition _run_body_to_line_119 (stub : CollectorStub) : M bool :=
  connected ← get _connected;
  if negb connected then sleep 200;; mret false
  else
    registered ← get _registered;
    if negb registered then
      try_except
        (log DEBUG "Try to register datapoints";;
         register_datapoints stub;;
         mret true)
        (fun exc =>
           match exc with
           | RpcError err =>
               is_grpc_fatal_error err;;
               log DEBUG "Failed to register datapoints";;
               sleep 3000;;
               mret false
           | _ =>
               log ERROR "Failed to register datapoints";;
               sleep 1000;;
               mret false
           end)
    else sleep 1000;; mret false.

(** Line 120: [self._registered = True]. *)
Definition _run_body_line_120 : M unit := update (set_registered true).

(** ** Tactics *)

Ltac unfold_monad :=
  unfold pass, raise, try_except, get, update, log, sleep, record_call,
    mbind, M_bind, mret, M_ret in *.

(** ** The failure classifier *)

Lemma fatal_test_spec (c : grpc.StatusCode) :
  bool_decide (c = grpc.UNAVAILABLE) || bool_decide (c = grpc.UNKNOWN)
  || bool_decide (c = grpc.UNAUTHENTICATED) || bool_decide (c = grpc.INTERNAL)
  = bool_decide (c ∈ fatal_codes).
Proof. destruct c; reflexivity. Qed.

(** What [is_grpc_fatal_error] does to the world: one more log record. *)
Lemma is_grpc_fatal_error_run (e : grpc.RpcError) (w : world) :
  exists record,
    is_grpc_fatal_error e w =
      (Returns (bool_decide (grpc.code e ∈ fatal_codes)),
       {| self := self w; calls := calls w; logged := logged w ++ [record];
          slept := slept w |}).
Proof.
  unfold is_grpc_fatal_error. rewrite fatal_test_spec.
  destruct (bool_decide (grpc.code e ∈ fatal_codes)); unfold_monad; eauto.
Qed.

(** C7. The classifier answers true (fatal) exactly for the codes
    UNAVAILABLE, UNKNOWN, UNAUTHENTICATED and INTERNAL and false (retryable)
    for every other code; the answer depends on the code of the error only,
    and the object, with its connection state, and the RPC history are as
    before. *)
Theorem is_grpc_fatal_error_classifies (e : grpc.RpcError) (w : world) :
  exists w',
    is_grpc_fatal_error e w = (Returns (bool_decide (grpc.code e ∈ fatal_codes)), w')
    /\ self w' = self w /\ calls w' = calls w /\ slept w' = slept w.
Proof.
  destruct (is_grpc_fatal_error_run e w) as [record ->]. eauto.
Qed.

(** ** Registration *)

Lemma same_flags_refl (o : CarSim) : same_flags o o.
Proof. repeat split. Qed.

(** One request: the answer of the broker decides. *)
Lemma _register_run (stub : CollectorStub) (name : string) (w : world) :
  let request := request_for name in
  let answer := RegisterDatapoints stub (length (calls w)) request in
  exists w',
    calls w' = calls w ++ [CallRegisterDatapoints request answer]
    /\ same_flags (self w) (self w') /\ slept w' = slept w /\ logged w' = logged w
    /\ match answer with
       | Returns response =>
           _register stub name FLOAT CONTINUOUS w = (Returns tt, w')
           /\ _ids (self w') = <[name := results_getitem response name]> (_ids (self w))
       | Raises e =>
           _register stub name FLOAT CONTINUOUS w = (Raises e, w')
           /\ _ids (self w') = _ids (self w)
       end.
Proof.
  intros request answer.
  exists (snd (_register stub name FLOAT CONTINUOUS w)).
  unfold _register, stub_RegisterDatapoints. unfold_monad.
  cbn. fold (request_for name). fold request. fold answer.
  destruct answer as [response | e]; cbn; repeat split.
Qed.

(** The whole registration: the answers to its two requests decide. *)
Lemma register_datapoints_run (stub : CollectorStub) (w : world) :
  let n := length (calls w) in
  let speed := request_for "Vehicle.Speed" in
  let acceleration := request_for "Vehicle.Acceleration" in
  exists w',
    same_flags (self w) (self w') /\ slept w' = slept w
    /\ match RegisterDatapoints stub n speed with
       | Raises e =>
           register_datapoints stub w = (Raises e, w')
           /\ calls w' = calls w ++ [CallRegisterDatapoints speed (Raises e)]
           /\ _ids (self w') = _ids (self w)
       | Returns r1 =>
           match RegisterDatapoints stub (S n) acceleration with
           | Raises e =>
               register_datapoints stub w = (Raises e, w')
               /\ calls w' = calls w ++ [CallRegisterDatapoints speed (Returns r1);
                                         CallRegisterDatapoints acceleration (Raises e)]
               /\ _ids (self w') =
                    <["Vehicle.Speed" := results_getitem r1 "Vehicle.Speed"]> (_ids (self w))
           | Returns r2 =>
               register_datapoints stub w = (Returns tt, w')
               /\ calls w' = calls w ++ [CallRegisterDatapoints speed (Returns r1);
                                         CallRegisterDatapoints acceleration (Returns r2)]
               /\ _ids (self w') =
                    <["Vehicle.Acceleration" := results_getitem r2 "Vehicle.Acceleration"]>
                      (<["Vehicle.Speed" := results_getitem r1 "Vehicle.Speed"]>
                         (_ids (self w)))
           end
       end.
Proof.
  intros n speed acceleration.
  unfold register_datapoints, register.
  set (w0 := snd (log INFO "Try register datapoints" w)).
  assert (Hlog : log INFO "Try register datapoints" w = (Returns tt, w0)) by reflexivity.
  destruct (_register_run stub "Vehicle.Speed" w0)
    as (w1 & Hc1 & Hf1 & Hs1 & Hl1 & H1).
  change (length (calls w0)) with n in *. change (calls w0) with (calls w) in *.
  change (self w0) with (self w) in *. change (slept w0) with (slept w) in *.
  fold speed in Hc1, H1.
  destruct (RegisterDatapoints stub n speed) as [r1 | e1].
  - destruct H1 as [H1 Hi1].
    destruct (_register_run stub "Vehicle.Acceleration" w1)
      as (w2 & Hc2 & Hf2 & Hs2 & Hl2 & H2).
    fold acceleration in Hc2, H2.
    rewrite Hc1, length_app, Nat.add_comm in Hc2, H2. cbn [length Nat.add] in Hc2, H2.
    fold n in Hc2, H2.
    exists w2. split; [|split].
    + unfold same_flags in *. intuition congruence.
    + congruence.
    + destruct (RegisterDatapoints stub (S n) acceleration) as [r2 | e2];
        destruct H2 as [H2 Hi2]; (split; [|split]).
      * unfold mbind, M_bind. rewrite Hlog, H1, H2. reflexivity.
      * rewrite Hc2, <- app_assoc. reflexivity.
      * rewrite Hi2, Hi1. reflexivity.
      * unfold mbind, M_bind. rewrite Hlog, H1, H2. reflexivity.
      * rewrite Hc2, <- app_assoc. reflexivity.
      * rewrite Hi2, Hi1. reflexivity.
  - destruct H1 as [H1 Hi1]. exists w1. repeat split; try apply Hf1; auto.
    unfold mbind, M_bind. rewrite Hlog, H1. reflexivity.
Qed.

(** The outcome of a registration, for the callers that only need to know
    whether it completed. *)
Lemma register_datapoints_cases (stub : CollectorStub) (w : world) :
  exists w' cs,
    same_flags (self w) (self w') /\ slept w' = slept w
    /\ calls w' = calls w ++ cs
    /\ ((register_datapoints stub w = (Returns tt, w') /\ registration_completed cs)
        \/ exists e, register_datapoints stub w = (Raises e, w')).
Proof.
  destruct (register_datapoints_run stub w) as (w' & Hf & Hs & H).
  cbv zeta in H.
  destruct (RegisterDatapoints stub (length (calls w)) _) as [r1 | e1].
  - destruct (RegisterDatapoints stub (S (length (calls w))) _) as [r2 | e2];
      destruct H as (Hrun & Hc & _); exists w'; eexists;
      (split; [exact Hf|]); (split; [exact Hs|]); (split; [exact Hc|]).
    + left. split; [assumption|]. exists [], r1, r2, []. reflexivity.
    + right. eauto.
  - destruct H as (Hrun & Hc & _). exists w'; eexists.
    split; [exact Hf|]. split; [exact Hs|]. split; [exact Hc|]. right. eauto.
Qed.

(** ** The connectivity handler *)

Lemma ready_test (c : grpc.ChannelConnectivity) :
  ready c -> bool_decide (c = grpc.READY) || bool_decide (c = grpc.IDLE) = true.
Proof. intros [-> | ->]; reflexivity. Qed.

Lemma not_ready_test (c : grpc.ChannelConnectivity) :
  ~ ready c -> bool_decide (c = grpc.READY) || bool_decide (c = grpc.IDLE) = false.
Proof. unfold ready. destruct c; intros H; try reflexivity; exfalso; auto. Qed.

Lemma handler_ready_connected (stub : CollectorStub)
    (c : grpc.ChannelConnectivity) (w : world) :
  ready c -> _connected (self w) = true ->
  exists w',
    on_broker_connectivity_change stub c w = (Returns tt, w')
    /\ self w' = self w /\ calls w' = calls w /\ slept w' = slept w.
Proof.
  intros Hc Hconn. unfold on_broker_connectivity_change.
  rewrite (ready_test c Hc). unfold_monad. cbn. rewrite Hconn. cbn.
  eexists. repeat split.
Qed.

Lemma handler_not_ready (stub : CollectorStub)
    (c : grpc.ChannelConnectivity) (w : world) :
  ~ ready c ->
  exists w',
    on_broker_connectivity_change stub c w = (Returns tt, w')
    /\ _connected (self w') = false /\ _registered (self w') = false
    /\ _ids (self w') = _ids (self w) /\ _shutdown (self w') = _shutdown (self w)
    /\ _channel (self w') = _channel (self w)
    /\ calls w' = calls w /\ slept w' = slept w.
Proof.
  intros Hc. unfold on_broker_connectivity_change.
  rewrite (not_ready_test c Hc). unfold_monad. cbn.
  destruct (_connected (self w)); [|destruct (bool_decide _)]; cbn;
    eexists; repeat split.
Qed.

Lemma handler_ready_unconnected (stub : CollectorStub)
    (c : grpc.ChannelConnectivity) (w : world) :
  ready c -> _connected (self w) = false ->
  exists w' cs,
    on_broker_connectivity_change stub c w = (Returns tt, w')
    /\ _connected (self w') = true
    /\ _shutdown (self w') = _shutdown (self w)
    /\ _channel (self w') = _channel (self w)
    /\ calls w' = calls w ++ cs /\ slept w' = slept w
    /\ ((_registered (self w') = true /\ registration_completed cs)
        \/ _registered (self w') = _registered (self w)).
Proof.
  intros Hc Hconn. unfold on_broker_connectivity_change.
  rewrite (ready_test c Hc). unfold_monad. cbn. rewrite Hconn. cbn.
  match goal with
  | |- context [register_datapoints ?s ?v] =>
      destruct (register_datapoints_cases s v)
        as (w1 & cs & (Hf1 & Hf2 & Hf3 & Hf4) & Hs & Hcalls & [[-> Hdone] | [e ->]])
  end; cbn in Hf1, Hf2, Hf3, Hf4, Hs, Hcalls.
  - cbn. eexists _, cs. split; [reflexivity|]. cbn. repeat split; auto.
  - destruct e as [err | key | attr | what]; cbn.
    + destruct (is_grpc_fatal_error_run err
        {| self := self w1; calls := calls w1;
           logged := logged w1 ++ [(ERROR, "Failed to register datapoints")];
           slept := slept w1 |}) as [record ->]. cbn.
      eexists _, cs. split; [reflexivity|]. cbn. repeat split; auto.
    + eexists _, cs. split; [reflexivity|]. cbn. repeat split; auto.
    + eexists _, cs. split; [reflexivity|]. cbn. repeat split; auto.
    + eexists _, cs. split; [reflexivity|]. cbn. repeat split; auto.
Qed.

(** The handler catches whatever a registration raises. *)
Lemma handler_returns (stub : CollectorStub)
    (c : grpc.ChannelConnectivity) (w : world) :
  exists w',
    on_broker_connectivity_change stub c w = (Returns tt, w')
    /\ _shutdown (self w') = _shutdown (self w)
    /\ _channel (self w') = _channel (self w).
Proof.
  destruct (decide (ready c)) as [Hc | Hc].
  - destruct (_connected (self w)) eqn:Hconn.
    + destruct (handler_ready_connected stub c w Hc Hconn) as (w' & Hrun & Hself & _).
      exists w'. rewrite Hself. auto.
    + destruct (handler_ready_unconnected stub c w Hc Hconn)
        as (w' & cs & Hrun & _ & ? & ? & _). eauto.
  - destruct (handler_not_ready stub c w Hc) as (w' & Hrun & _ & _ & _ & ? & ? & _).
    eauto.
Qed.

(** ** The supervisor loop *)

Lemma _run_body_run (stub : CollectorStub) (w : world) :
  exists w' cs,
    _run_body stub w = (Returns tt, w')
    /\ _connected (self w') = _connected (self w)
    /\ _shutdown (self w') = _shutdown (self w)
    /\ _channel (self w') = _channel (self w)
    /\ calls w' = calls w ++ cs
    /\ ((_registered (self w') = true /\ _connected (self w) = true
         /\ registration_completed cs)
        \/ _registered (self w') = _registered (self w)).
Proof.
  unfold _run_body. unfold_monad. cbn.
  destruct (_connected (self w)) eqn:Hconn; cbn.
  - destruct (_registered (self w)) eqn:Hreg; cbn.
    + eexists _, []. split; [reflexivity|]. cbn. rewrite app_nil_r. auto 10.
    + match goal with
      | |- context [register_datapoints ?s ?v] =>
          destruct (register_datapoints_cases s v)
            as (w1 & cs & (Hf1 & Hf2 & Hf3 & Hf4) & Hs & Hcalls
                & [[-> Hdone] | [e ->]])
      end; cbn in Hf1, Hf2, Hf3, Hf4, Hs, Hcalls.
      * cbn. eexists _, cs. split; [reflexivity|]. cbn.
        repeat split; try congruence. left. auto.
      * destruct e as [err | key | attr | what]; cbn.
        -- destruct (is_grpc_fatal_error_run err w1) as [record ->]. cbn.
           eexists _, cs. split; [reflexivity|]. cbn.
           repeat split; try congruence. right. congruence.
        -- eexists _, cs. split; [reflexivity|]. cbn.
           repeat split; try congruence. right. congruence.
        -- eexists _, cs. split; [reflexivity|]. cbn.
           repeat split; try congruence. right. congruence.
        -- eexists _, cs. split; [reflexivity|]. cbn.
           repeat split; try congruence. right. congruence.
  - eexists _, []. split; [reflexivity|]. cbn. rewrite app_nil_r. auto 10.
Qed.

(** With the flag clear the loop goes on, whatever the broker answers. *)
Lemma _run_goes_on (stub : CollectorStub) (fuel : nat) (w : world) :
  _shutdown (self w) = false ->
  exists w',
    _run stub fuel w = (Returns StillRunning, w')
    /\ _shutdown (self w') = false.
Proof.
  revert w. induction fuel as [|fuel IH]; intros w Hw.
  - exists w. split; [reflexivity | assumption].
  - destruct (_run_body_run stub w) as (w1 & cs & Hbody & _ & Hsd & _).
    destruct (IH w1) as (w' & Hrun & Hw'); [congruence|].
    exists w'. split; [|assumption].
    cbn [_run]. unfold_monad. cbn. rewrite Hw, Hbody. exact Hrun.
Qed.

(** With the flag set the loop exits at once. *)
Lemma _run_exits (stub : CollectorStub) (fuel : nat) (w : world) :
  _shutdown (self w) = true ->
  _run stub (S fuel) w = (Returns Exited, w).
Proof. intros Hw. cbn [_run]. unfold_monad. cbn. rewrite Hw. reflexivity. Qed.

(** ** Closing and publishing *)

Lemma close_run (w : world) :
  match _channel (self w) with
  | Some _ =>
      exists w',
        close w = (Raises TypeError, w')
        /\ _channel (self w') = Some {| grpc.closed := true |}
        /\ _shutdown (self w') = _shutdown (self w)
        /\ _connected (self w') = _connected (self w)
        /\ _registered (self w') = _registered (self w)
        /\ _ids (self w') = _ids (self w)
        /\ calls w' = calls w
  | None => close w = (Raises (AttributeError "_channel"), w)
  end.
Proof.
  unfold close. unfold_monad. cbn.
  destruct (_channel (self w)); [|reflexivity].
  eexists. split; [reflexivity|]. cbn. auto 10.
Qed.

Lemma set_float_datapoint_run (stub : CollectorStub)
    (name : string) (value : float) (w : world) :
  match _ids (self w) !! name with
  | None => set_float_datapoint stub name value w = (Raises (KeyError name), w)
  | Some _id =>
      let request := {| datapoints := <[_id := float_value value]> ∅ |} in
      let answer := UpdateDatapoints stub (length (calls w)) request in
      exists w',
        calls w' = calls w ++ [CallUpdateDatapoints request answer]
        /\ _ids (self w') = _ids (self w)
        /\ _registered (self w') = _registered (self w)
        /\ _shutdown (self w') = _shutdown (self w)
        /\ _channel (self w') = _channel (self w)
        /\ match answer with
           | Returns _ =>
               set_float_datapoint stub name value w = (Returns tt, w')
               /\ _connected (self w') = _connected (self w)
           | Raises (RpcError err) =>
               set_float_datapoint stub name value w = (Raises (RpcError err), w')
               /\ _connected (self w') = bool_decide (grpc.code err ∈ fatal_codes)
           | Raises e =>
               set_float_datapoint stub name value w = (Raises e, w')
               /\ _connected (self w') = _connected (self w)
           end
  end.
Proof.
  unfold set_float_datapoint, stub_UpdateDatapoints. unfold_monad. cbn.
  destruct (_ids (self w) !! name) as [_id|]; [|reflexivity].
  cbn. destruct (UpdateDatapoints stub _ _) as [reply | e]; cbn.
  - eexists; split_and!; [.. | reflexivity | ]; reflexivity.
  - destruct e as [err | key | attr | what]; cbn;
      try (eexists; split_and!; [.. | reflexivity | ]; reflexivity).
    match goal with
    | |- context [is_grpc_fatal_error err ?v] =>
        destruct (is_grpc_fatal_error_run err v) as [record ->]
    end. cbn.
    eexists; split_and!; [.. | reflexivity | ]; reflexivity.
Qed.

(** ** Runs *)

Lemma run_app (stub : CollectorStub) (acts1 acts2 : list action) (w : world) :
  run stub (acts1 ++ acts2) w = run stub acts2 (run stub acts1 w).
Proof. revert w. induction acts1 as [|a acts1 IH]; intros w; cbn; auto. Qed.

Lemma run_snoc (stub : CollectorStub) (acts : list action) (a : action) (w : world) :
  run stub (acts ++ [a]) w = snd (perform stub a (run stub acts w)).
Proof. rewrite run_app. reflexivity. Qed.

Lemma registration_completed_later (cs more : list rpc_call) :
  registration_completed cs -> registration_completed (cs ++ more).
Proof.
  intros (before & r1 & r2 & after & ->).
  exists before, r1, r2, (after ++ more). rewrite <- !app_assoc. reflexivity.
Qed.

Lemma registration_completed_earlier (cs more : list rpc_call) :
  registration_completed cs -> registration_completed (more ++ cs).
Proof.
  intros (before & r1 & r2 & after & ->).
  exists (more ++ before), r1, r2, after. rewrite <- !app_assoc. reflexivity.
Qed.

(** One more action that does not report another state keeps the object
    in its ready state. *)
Lemma entered_ready_step (stub : CollectorStub) (w0 : world) (acts : list action)
    (a : action) (cs : list rpc_call) (done done' : list rpc_call -> Prop) :
  entered_ready stub w0 acts done ->
  (forall c, a = Notify c -> ready c) ->
  calls (run stub (acts ++ [a]) w0) = calls (run stub acts w0) ++ cs ->
  (forall cs0, done cs0 -> done' (cs0 ++ cs)) ->
  entered_ready stub w0 (acts ++ [a]) done'.
Proof.
  intros (earlier & c & later & -> & Hc & Hun & Hlater & cs0 & Hcalls & Hdone)
    Ha Hstep Hmono.
  exists earlier, c, (later ++ [a]). split; [|split; [|split; [|split]]].
  - rewrite <- app_assoc. reflexivity.
  - exact Hc.
  - exact Hun.
  - apply Forall_app. split; [exact Hlater|]. constructor; [exact Ha | constructor].
  - exists (cs0 ++ cs). split; [|auto].
    rewrite Hstep, Hcalls, <- app_assoc. reflexivity.
Qed.


(** The invariant of the runs of the handler and the loop. *)
Lemma supervised_run_invariant (stub : CollectorStub) (w0 : world) (acts : list action) :
  _connected (self w0) = false -> _registered (self w0) = false ->
  Forall supervising acts ->
  (_connected (self (run stub acts w0)) = true ->
   entered_ready stub w0 acts (fun _ => True))
  /\ (_registered (self (run stub acts w0)) = true ->
      _connected (self (run stub acts w0)) = true
      /\ entered_ready stub w0 acts registration_completed).
Proof.
  intros Hconn0 Hreg0. induction acts as [|a acts IH] using rev_ind; intros Hsup.
  - cbn. rewrite Hconn0, Hreg0. split; discriminate.
  - apply Forall_app in Hsup as [Hsup Ha]. inversion_clear Ha as [|? ? Ha' _].
    destruct (IH Hsup) as [IHc IHr]. clear IH.
    pose proof (run_snoc stub acts a w0) as Hsnoc.
    set (w := run stub acts w0) in *.
    destruct a as [c | | name value |]; cbn in Ha'; try contradiction; cbn in Hsnoc.
    + (* a notification *)
      destruct (decide (ready c)) as [Hc | Hc].
      * destruct (_connected (self w)) eqn:Hconn.
        -- destruct (handler_ready_connected stub c w Hc Hconn)
             as (w' & Hrun & Hself & Hcalls & _).
           rewrite Hrun in Hsnoc. cbn in Hsnoc. rewrite Hsnoc, Hself.
           assert (Hstep : calls (run stub (acts ++ [Notify c]) w0)
                           = calls w ++ []).
           { rewrite Hsnoc, Hcalls, app_nil_r. reflexivity. }
           split.
           ++ intros _. eapply entered_ready_step; eauto.
              intros c' [= <-]. exact Hc.
           ++ intros Hreg. destruct (IHr Hreg) as [_ Hent]. split; [exact Hconn|].
              eapply entered_ready_step; eauto.
              ** intros c' [= <-]. exact Hc.
              ** intros cs0 Hd. rewrite app_nil_r. exact Hd.
        -- destruct (handler_ready_unconnected stub c w Hc Hconn)
             as (w' & cs & Hrun & Hconn' & _ & _ & Hcalls & _ & Hreg').
           rewrite Hrun in Hsnoc. cbn in Hsnoc. rewrite Hsnoc.
           assert (Hent : forall done : list rpc_call -> Prop, done cs ->
                     entered_ready stub w0 (acts ++ [Notify c]) done).
           { intros done Hd. exists acts, c, []. repeat split; auto.
             exists cs. rewrite Hsnoc. auto. }
           split.
           ++ intros _. apply Hent. exact I.
           ++ intros Hreg. split; [exact Hconn'|].
              destruct Hreg' as [[_ Hdone] | Hsame]; [apply Hent, Hdone|].
              rewrite Hreg in Hsame. symmetry in Hsame.
              destruct (IHr Hsame) as [Habs _]. congruence.
      * destruct (handler_not_ready stub c w Hc) as (w' & Hrun & Hconn' & Hreg' & _).
        rewrite Hrun in Hsnoc. cbn in Hsnoc. rewrite Hsnoc, Hconn', Hreg'.
        split; discriminate.
    + (* an iteration of the loop *)
      destruct (_run_body_run stub w)
        as (w' & cs & Hrun & Hconn' & _ & _ & Hcalls & Hreg').
      rewrite Hrun in Hsnoc. cbn in Hsnoc. rewrite Hsnoc, Hconn'.
      assert (Hstep : calls (run stub (acts ++ [Iterate]) w0) = calls w ++ cs).
      { rewrite Hsnoc. exact Hcalls. }
      split.
      * intros Hconn. eapply entered_ready_step; eauto. discriminate.
      * intros Hreg. destruct Hreg' as [(_ & Hconn & Hdone) | Hsame].
        -- split; [exact Hconn|].
           eapply entered_ready_step; [apply IHc, Hconn | discriminate | exact Hstep |].
           intros cs0 _. apply registration_completed_earlier, Hdone.
        -- rewrite Hreg in Hsame. symmetry in Hsame.
           destruct (IHr Hsame) as [Hconn Hent]. split; [exact Hconn|].
           eapply entered_ready_step; [exact Hent | discriminate | exact Hstep |].
           intros cs0 Hd. apply registration_completed_later, Hd.
Qed.

Lemma perform_keeps_shutdown (stub : CollectorStub) (a : action) (w : world) :
  _shutdown (self (snd (perform stub a w))) = _shutdown (self w).
Proof.
  destruct a as [c | | name value |]; cbn [perform].
  - destruct (handler_returns stub c w) as (w' & -> & H & _). exact H.
  - destruct (_run_body_run stub w) as (w' & cs & -> & _ & H & _). exact H.
  - pose proof (set_float_datapoint_run stub name value w) as H.
    destruct (_ids (self w) !! name) as [_id|]; [|rewrite H; reflexivity].
    cbv zeta in H. destruct H as (w' & _ & _ & _ & Hsd & _ & H).
    destruct (UpdateDatapoints stub _ _) as [reply | [err | key | attr | what]];
      destruct H as [-> _]; exact Hsd.
  - pose proof (close_run w) as H.
    destruct (_channel (self w)); [|rewrite H; reflexivity].
    destruct H as (w' & -> & _ & H & _). exact H.
Qed.

Lemma run_keeps_shutdown (stub : CollectorStub) (acts : list action) (w : world) :
  _shutdown (self (run stub acts w)) = _shutdown (self w).
Proof.
  revert w. induction acts as [|a acts IH]; intros w; cbn [run]; [reflexivity|].
  rewrite IH. apply perform_keeps_shutdown.
Qed.

(** ** The claims *)

(** C1. A publish call that fails with an RPC error re-raises the error, but
    it assigns the answer of the classifier to [_connected]: after a fatal
    error (UNAVAILABLE) on an object that was not connected the flag is true,
    and after a retryable error (NOT_FOUND) on a connected object the flag is
    false.  The claim asks for the opposite: false after a fatal error,
    unchanged after a retryable one, never set to true. *)
Theorem set_float_datapoint_assigns_classification :
  (let stub := broker_rejecting_updates grpc.UNAVAILABLE in
   let w := run stub [Notify grpc.READY; Notify grpc.TRANSIENT_FAILURE] start in
   _connected (self w) = false
   /\ exists w',
        set_float_datapoint stub "Vehicle.Speed" 42.5%float w
        = (Raises (rpc_error grpc.UNAVAILABLE), w')
        /\ _connected (self w') = true)
  /\ (let stub := broker_rejecting_updates grpc.NOT_FOUND in
      let w := run stub [Notify grpc.READY] start in
      _connected (self w) = true
      /\ exists w',
           set_float_datapoint stub "Vehicle.Speed" 42.5%float w
           = (Raises (rpc_error grpc.NOT_FOUND), w')
           /\ _connected (self w') = false).
Proof.
  split; cbv zeta; (split; [vm_compute; reflexivity|]);
    eexists; (split; [vm_compute; reflexivity | reflexivity]).
Qed.

(** C2, as the claim states it, fails: after a registration and a
    notification of TRANSIENT_FAILURE the flags are false but the mapping
    still holds the identifiers of the registration. *)
Lemma disconnect_keeps_identifiers :
  let w := run broker_up [Notify grpc.READY] start in
  _connected (self w) = true
  /\ exists w',
       on_broker_connectivity_change broker_up grpc.TRANSIENT_FAILURE w = (Returns tt, w')
       /\ _connected (self w') = false /\ _registered (self w') = false
       /\ _ids (self w') !! "Vehicle.Speed" = Some 1
       /\ _ids (self w') !! "Vehicle.Acceleration" = Some 2
       /\ _ids (self w') <> ∅.
Proof.
  cbv zeta. split; [vm_compute; reflexivity|].
  eexists. split; [vm_compute; reflexivity|].
  repeat split; try (vm_compute; reflexivity).
  intros H. apply (f_equal (fun m => m !! "Vehicle.Speed")) in H.
  vm_compute in H. discriminate H.
Qed.

(** C2, amended. On a notification of a state other than READY and IDLE
    received while connected, the handler sets [_connected] and [_registered]
    to false, sends nothing to the broker, and leaves the mapping from names
    to identifiers as it was. *)
Theorem disconnect_resets_flags_only (stub : CollectorStub)
    (c : grpc.ChannelConnectivity) (w : world) :
  ~ ready c -> _connected (self w) = true ->
  exists w',
    on_broker_connectivity_change stub c w = (Returns tt, w')
    /\ _connected (self w') = false /\ _registered (self w') = false
    /\ _ids (self w') = _ids (self w) /\ calls w' = calls w.
Proof.
  intros Hc _.
  destruct (handler_not_ready stub c w Hc)
    as (w' & Hrun & Hconn & Hreg & Hids & _ & _ & Hcalls & _).
  exists w'. auto.
Qed.

Lemma disconnect_resets_flags_only_witness :
  let w := run broker_up [Notify grpc.READY] start in
  ~ ready grpc.TRANSIENT_FAILURE /\ _connected (self w) = true
  /\ exists w',
       on_broker_connectivity_change broker_up grpc.TRANSIENT_FAILURE w = (Returns tt, w')
       /\ _connected (self w') = false /\ _registered (self w') = false
       /\ _ids (self w') = _ids (self w) /\ calls w' = calls w.
Proof.
  cbv zeta.
  assert (Hc : ~ ready grpc.TRANSIENT_FAILURE) by (intros [H | H]; discriminate H).
  assert (Hconn : _connected (self (run broker_up [Notify grpc.READY] start)) = true)
    by (vm_compute; reflexivity).
  split; [exact Hc|]. split; [exact Hconn|].
  exact (disconnect_resets_flags_only broker_up grpc.TRANSIENT_FAILURE _ Hc Hconn).
Defined.

(** C3, as the claim states it, fails: with a broker that accepts
    everything, one registration sends two requests, each with one spec. *)
Lemma register_datapoints_sends_two_requests :
  exists w',
    register_datapoints broker_up start = (Returns tt, w')
    /\ calls w' =
         [CallRegisterDatapoints (request_for "Vehicle.Speed") (Returns reply_1_2);
          CallRegisterDatapoints (request_for "Vehicle.Acceleration") (Returns reply_1_2)]
    /\ length (calls w') = 2%nat
    /\ length (reg_list (request_for "Vehicle.Speed")) = 1%nat
    /\ length (reg_list (request_for "Vehicle.Acceleration")) = 1%nat.
Proof.
  eexists. split; [vm_compute; reflexivity|]. repeat split.
Qed.

(** C3, amended. Every registration sends one request per data-point, each
    holding the spec of that data-point alone: first the one for
    Vehicle.Speed and, if that one is answered with a reply, the one for
    Vehicle.Acceleration; nothing else is sent. *)
Theorem register_datapoints_one_request_per_datapoint
    (stub : CollectorStub) (w : world) :
  exists result w',
    register_datapoints stub w = (result, w')
    /\ match RegisterDatapoints stub (length (calls w)) (request_for "Vehicle.Speed") with
       | Raises e =>
           calls w' = calls w
                      ++ [CallRegisterDatapoints (request_for "Vehicle.Speed") (Raises e)]
       | Returns r1 =>
           exists answer,
             calls w' = calls w
                        ++ [CallRegisterDatapoints (request_for "Vehicle.Speed") (Returns r1);
                            CallRegisterDatapoints (request_for "Vehicle.Acceleration") answer]
       end.
Proof.
  destruct (register_datapoints_run stub w) as (w' & _ & _ & H). cbv zeta in H.
  destruct (RegisterDatapoints stub (length (calls w)) _) as [r1 | e1].
  - destruct (RegisterDatapoints stub (S (length (calls w))) _) as [r2 | e2];
      destruct H as (-> & Hcalls & _); eauto.
  - destruct H as (-> & Hcalls & _). eauto.
Qed.

(** C4, as the claim states it, fails: when the broker answers the first
    request and fails the second, the registration raises and the mapping,
    empty before, holds the identifier of Vehicle.Speed. *)
Lemma failed_registration_keeps_first_identifier :
  exists e w',
    register_datapoints broker_gone_after_first start = (Raises e, w')
    /\ _ids (self start) = ∅
    /\ _ids (self w') = {[ "Vehicle.Speed" := 1 ]}
    /\ _ids (self w') <> _ids (self start).
Proof.
  eexists _, _. split; [vm_compute; reflexivity|].
  split; [reflexivity|]. split; [vm_compute; reflexivity|].
  intros H. apply (f_equal (fun m => m !! "Vehicle.Speed")) in H.
  vm_compute in H. discriminate H.
Qed.

(** C4, amended. A registration that fails at its first request leaves the
    mapping as it was; one that fails at its second request has stored the
    identifier of Vehicle.Speed from the first reply and changed nothing
    else; one that succeeds has stored both identifiers. *)
Theorem register_datapoints_stores_per_request (stub : CollectorStub) (w : world) :
  exists result w',
    register_datapoints stub w = (result, w')
    /\ match RegisterDatapoints stub (length (calls w)) (request_for "Vehicle.Speed") with
       | Raises e => result = Raises e /\ _ids (self w') = _ids (self w)
       | Returns r1 =>
           match RegisterDatapoints stub (S (length (calls w)))
                   (request_for "Vehicle.Acceleration") with
           | Raises e =>
               result = Raises e
               /\ _ids (self w') =
                    <["Vehicle.Speed" := results_getitem r1 "Vehicle.Speed"]> (_ids (self w))
           | Returns r2 =>
               result = Returns tt
               /\ _ids (self w') =
                    <["Vehicle.Acceleration" := results_getitem r2 "Vehicle.Acceleration"]>
                      (<["Vehicle.Speed" := results_getitem r1 "Vehicle.Speed"]>
                         (_ids (self w)))
           end
       end.
Proof.
  destruct (register_datapoints_run stub w) as (w' & _ & _ & H). cbv zeta in H.
  destruct (RegisterDatapoints stub (length (calls w)) _) as [r1 | e1].
  - destruct (RegisterDatapoints stub (S (length (calls w))) _) as [r2 | e2];
      destruct H as (-> & _ & Hids); eauto.
  - destruct H as (-> & _ & Hids). eauto.
Qed.

(** The two steps make the body: running the body is running it up to
    line 119 and then, when the registration returned, line 120. *)
Lemma _run_body_in_two_steps (stub : CollectorStub) (w : world) :
  _run_body stub w =
    (at_line_120 ← _run_body_to_line_119 stub;
     if (at_line_120 : bool) then _run_body_line_120 else pass) w.
Proof.
  unfold _run_body, _run_body_to_line_119, _run_body_line_120. unfold_monad. cbn.
  destruct (_connected (self w)); cbn; [|reflexivity].
  destruct (_registered (self w)); cbn; [reflexivity|].
  match goal with
  | |- context [register_datapoints stub ?v] =>
      destruct (register_datapoints stub v) as [[[] | e] w1]
  end; cbn; [reflexivity|].
  destruct e as [err | key | attr | what]; cbn; try reflexivity.
  destruct (is_grpc_fatal_error_run err w1) as [record ->]. reflexivity.
Qed.




(** C6, as the claim states it, fails: closing an object whose channel is
    open closes the channel and leaves the shutdown flag false, and the
    supervisor loop is still running ten iterations later. *)
Lemma close_leaves_the_loop_running :
  let w := snd (connect_to_databroker broker_up 3 start) in
  exists w',
    close w = (Raises TypeError, w')
    /\ _channel (self w') = Some {| grpc.closed := true |}
    /\ _shutdown (self w') = false
    /\ fst (_run broker_up 10 w') = Returns StillRunning.
Proof.
  cbv zeta. eexists. split; [vm_compute; reflexivity|].
  repeat split; vm_compute; reflexivity.
Qed.

(** C6, amended. Closing closes the channel and leaves the shutdown flag as
    it was (the call ends with the TypeError of its [await]); no action on
    the object (a notification, an iteration of the loop, a publish call,
    closing) changes the flag; the supervisor loop exits when it finds the
    flag set at the head of an iteration, and while the flag is clear it
    goes on, whatever the broker answers: no error stops it. *)
Theorem loop_stops_on_flag_only (stub : CollectorStub) (w : world) (fuel : nat) :
  (forall channel, _channel (self w) = Some channel ->
     exists w',
       close w = (Raises TypeError, w')
       /\ _channel (self w') = Some {| grpc.closed := true |}
       /\ _shutdown (self w') = _shutdown (self w))
  /\ (forall acts, _shutdown (self (run stub acts w)) = _shutdown (self w))
  /\ (_shutdown (self w) = false ->
      exists w', _run stub fuel w = (Returns StillRunning, w')
                 /\ _shutdown (self w') = false)
  /\ (_shutdown (self w) = true -> _run stub (S fuel) w = (Returns Exited, w)).
Proof.
  split; [|split; [|split]].
  - intros channel Hch. pose proof (close_run w) as H. rewrite Hch in H.
    destruct H as (w' & Hrun & Hclosed & Hsd & _). eauto.
  - intros acts. apply run_keeps_shutdown.
  - apply _run_goes_on.
  - apply _run_exits.
Qed.

Lemma loop_stops_on_flag_only_witness :
  let w := snd (connect_to_databroker broker_gone_after_first 0 start) in
  _channel (self w) = Some {| grpc.closed := false |}
  /\ _shutdown (self w) = false
  /\ (exists w',
        close w = (Raises TypeError, w')
        /\ _channel (self w') = Some {| grpc.closed := true |}
        /\ _shutdown (self w') = _shutdown (self w))
  /\ (exists w', _run broker_gone_after_first 5 w = (Returns StillRunning, w')
                 /\ _shutdown (self w') = false).
Proof.
  cbv zeta.
  destruct (loop_stops_on_flag_only broker_gone_after_first
              (snd (connect_to_databroker broker_gone_after_first 0 start)) 5)
    as (Hclose & _ & Hgo & _).
  split; [reflexivity|]. split; [reflexivity|]. split.
  - exact (Hclose _ eq_refl).
  - exact (Hgo eq_refl).
Defined.

(** C8. A publish call with a name that the mapping does not hold raises
    KeyError for that name, which is not an RPC error; the exception reaches
    the caller, and the world is as before: no update was sent and nothing
    changed. *)
Theorem set_float_datapoint_unregistered_name (stub : CollectorStub)
    (name : string) (value : float) (w : world) :
  _ids (self w) !! name = None ->
  set_float_datapoint stub name value w = (Raises (KeyError name), w)
  /\ forall err, KeyError name <> RpcError err.
Proof.
  intros Hnone. split; [|discriminate].
  pose proof (set_float_datapoint_run stub name value w) as H.
  rewrite Hnone in H. exact H.
Qed.

Lemma set_float_datapoint_unregistered_name_witness :
  _ids (self start) !! "Vehicle.Speed" = None
  /\ set_float_datapoint broker_up "Vehicle.Speed" 42.5%float start
     = (Raises (KeyError "Vehicle.Speed"), start)
  /\ forall err, KeyError "Vehicle.Speed" <> RpcError err.
Proof.
  split; [reflexivity|].
  exact (set_float_datapoint_unregistered_name broker_up "Vehicle.Speed" 42.5%float
           start eq_refl).
Defined.

(** C10. A notification of READY or IDLE that arrives while [_connected] is
    true changes nothing: the handler returns, the object is as before, with
    its flags and its mapping, and no request was sent to the broker. *)
Theorem ready_while_connected_is_noop (stub : CollectorStub)
    (c : grpc.ChannelConnectivity) (w : world) :
  c = grpc.READY \/ c = grpc.IDLE -> _connected (self w) = true ->
  exists w',
    on_broker_connectivity_change stub c w = (Returns tt, w')
    /\ self w' = self w /\ calls w' = calls w.
Proof.
  intros Hc Hconn.
  destruct (handler_ready_connected stub c w Hc Hconn) as (w' & Hrun & Hself & Hcalls & _).
  eauto.
Qed.

Lemma ready_while_connected_is_noop_witness :
  let w := run broker_gone_after_first [Notify grpc.READY] start in
  (grpc.IDLE = grpc.READY \/ grpc.IDLE = grpc.IDLE)
  /\ _connected (self w) = true /\ _registered (self w) = false
  /\ exists w',
       on_broker_connectivity_change broker_gone_after_first grpc.IDLE w = (Returns tt, w')
       /\ self w' = self w /\ calls w' = calls w.
Proof.
  cbv zeta.
  assert (Hconn : _connected (self (run broker_gone_after_first [Notify grpc.READY] start))
                  = true) by (vm_compute; reflexivity).
  split; [right; reflexivity|]. split; [exact Hconn|].
  split; [vm_compute; reflexivity|].
  exact (ready_while_connected_is_noop broker_gone_after_first grpc.IDLE _
           (or_intror eq_refl) Hconn).
Defined.

(** ** More on the handler, the loop and the publisher *)

(** The handler on a ready state while unconnected, by the answers of the
    broker. *)
Lemma handler_registering (stub : CollectorStub)
    (c : grpc.ChannelConnectivity) (w : world) :
  ready c -> _connected (self w) = false ->
  let n := length (calls w) in
  let speed := request_for "Vehicle.Speed" in
  let acceleration := request_for "Vehicle.Acceleration" in
  exists w',
    on_broker_connectivity_change stub c w = (Returns tt, w')
    /\ _connected (self w') = true
    /\ _shutdown (self w') = _shutdown (self w)
    /\ _channel (self w') = _channel (self w)
    /\ slept w' = slept w
    /\ match RegisterDatapoints stub n speed with
       | Raises e =>
           calls w' = calls w ++ [CallRegisterDatapoints speed (Raises e)]
           /\ _ids (self w') = _ids (self w)
           /\ _registered (self w') = _registered (self w)
       | Returns r1 =>
           match RegisterDatapoints stub (S n) acceleration with
           | Raises e =>
               calls w' = calls w ++ [CallRegisterDatapoints speed (Returns r1);
                                      CallRegisterDatapoints acceleration (Raises e)]
               /\ _ids (self w') =
                    <["Vehicle.Speed" := results_getitem r1 "Vehicle.Speed"]> (_ids (self w))
               /\ _registered (self w') = _registered (self w)
           | Returns r2 =>
               calls w' = calls w ++ [CallRegisterDatapoints speed (Returns r1);
                                      CallRegisterDatapoints acceleration (Returns r2)]
               /\ _ids (self w') =
                    <["Vehicle.Acceleration" := results_getitem r2 "Vehicle.Acceleration"]>
                      (<["Vehicle.Speed" := results_getitem r1 "Vehicle.Speed"]>
                         (_ids (self w)))
               /\ _registered (self w') = true
           end
       end.
Proof.
  intros Hc Hconn n speed acceleration. unfold on_broker_connectivity_change.
  rewrite (ready_test c Hc). unfold_monad. cbn. rewrite Hconn. cbn.
  match goal with
  | |- context [register_datapoints ?s ?v] =>
      destruct (register_datapoints_run s v) as (w1 & (Hf1 & Hf2 & Hf3 & Hf4) & Hs & H)
  end.
  cbv zeta in H. cbn in Hf1, Hf2, Hf3, Hf4, Hs, H.
  fold n speed acceleration in H.
  destruct (RegisterDatapoints stub n speed) as [r1 | e1];
    [destruct (RegisterDatapoints stub (S n) acceleration) as [r2 | e2]|];
    destruct H as (-> & Hcalls & Hids); cbn.
  - eexists. split; [reflexivity|]. cbn. auto 10.
  - destruct e2 as [err | key | attr | what]; cbn;
      try (eexists; split; [reflexivity|]; cbn; auto 10).
    match goal with
    | |- context [is_grpc_fatal_error err ?v] =>
        destruct (is_grpc_fatal_error_run err v) as [record ->]
    end. cbn. eexists; split; [reflexivity|]; cbn; auto 10.
  - destruct e1 as [err | key | attr | what]; cbn;
      try (eexists; split; [reflexivity|]; cbn; auto 10).
    match goal with
    | |- context [is_grpc_fatal_error err ?v] =>
        destruct (is_grpc_fatal_error_run err v) as [record ->]
    end. cbn. eexists; split; [reflexivity|]; cbn; auto 10.
Qed.

(** An iteration of the loop while connected and unregistered, by the
    answers of the broker. *)
Lemma _run_body_registering (stub : CollectorStub) (w : world) :
  _connected (self w) = true -> _registered (self w) = false ->
  let n := length (calls w) in
  let speed := request_for "Vehicle.Speed" in
  let acceleration := request_for "Vehicle.Acceleration" in
  exists w',
    _run_body stub w = (Returns tt, w')
    /\ _connected (self w') = true
    /\ _shutdown (self w') = _shutdown (self w)
    /\ _channel (self w') = _channel (self w)
    /\ match RegisterDatapoints stub n speed with
       | Raises e =>
           calls w' = calls w ++ [CallRegisterDatapoints speed (Raises e)]
           /\ _ids (self w') = _ids (self w)
           /\ _registered (self w') = false
           /\ slept w' = slept w + backoff e
       | Returns r1 =>
           match RegisterDatapoints stub (S n) acceleration with
           | Raises e =>
               calls w' = calls w ++ [CallRegisterDatapoints speed (Returns r1);
                                      CallRegisterDatapoints acceleration (Raises e)]
               /\ _ids (self w') =
                    <["Vehicle.Speed" := results_getitem r1 "Vehicle.Speed"]> (_ids (self w))
               /\ _registered (self w') = false
               /\ slept w' = slept w + backoff e
           | Returns r2 =>
               calls w' = calls w ++ [CallRegisterDatapoints speed (Returns r1);
                                      CallRegisterDatapoints acceleration (Returns r2)]
               /\ _ids (self w') =
                    <["Vehicle.Acceleration" := results_getitem r2 "Vehicle.Acceleration"]>
                      (<["Vehicle.Speed" := results_getitem r1 "Vehicle.Speed"]>
                         (_ids (self w)))
               /\ _registered (self w') = true
               /\ slept w' = slept w
           end
       end.
Proof.
  intros Hconn Hreg n speed acceleration. unfold _run_body.
  unfold_monad. cbn. rewrite Hconn. cbn. rewrite Hreg. cbn.
  match goal with
  | |- context [register_datapoints ?s ?v] =>
      destruct (register_datapoints_run s v) as (w1 & (Hf1 & Hf2 & Hf3 & Hf4) & Hs & H)
  end.
  cbv zeta in H. cbn in Hf1, Hf2, Hf3, Hf4, Hs, H.
  fold n speed acceleration in H.
  destruct (RegisterDatapoints stub n speed) as [r1 | e1];
    [destruct (RegisterDatapoints stub (S n) acceleration) as [r2 | e2]|];
    destruct H as (-> & Hcalls & Hids); cbn.
  - eexists. split; [reflexivity|]. cbn. rewrite Hf1, Hconn. auto 10.
  - destruct e2 as [err | key | attr | what]; cbn;
      try (eexists; split; [reflexivity|]; cbn; rewrite Hf1, Hf2, Hs, Hconn, Hreg; auto 10).
    destruct (is_grpc_fatal_error_run err w1) as [record ->]. cbn.
    eexists; split; [reflexivity|]; cbn. rewrite Hf1, Hf2, Hs, Hconn, Hreg. auto 10.
  - destruct e1 as [err | key | attr | what]; cbn;
      try (eexists; split; [reflexivity|]; cbn; rewrite Hf1, Hf2, Hs, Hconn, Hreg; auto 10).
    destruct (is_grpc_fatal_error_run err w1) as [record ->]. cbn.
    eexists; split; [reflexivity|]; cbn. rewrite Hf1, Hf2, Hs, Hconn, Hreg. auto 10.
Qed.

Lemma _run_body_unconnected (stub : CollectorStub) (w : world) :
  _connected (self w) = false ->
  _run_body stub w =
    (Returns tt,
     {| self := self w; calls := calls w; logged := logged w; slept := slept w + 200 |}).
Proof. intros H. unfold _run_body. unfold_monad. cbn. rewrite H. reflexivity. Qed.

Lemma _run_body_registered (stub : CollectorStub) (w : world) :
  _connected (self w) = true -> _registered (self w) = true ->
  _run_body stub w =
    (Returns tt,
     {| self := self w; calls := calls w; logged := logged w; slept := slept w + 1000 |}).
Proof.
  intros Hc Hr. unfold _run_body. unfold_monad. cbn. rewrite Hc. cbn. rewrite Hr.
  reflexivity.
Qed.

Lemma _run_step (stub : CollectorStub) (fuel : nat) (w w1 : world) :
  _shutdown (self w) = false ->
  _run_body stub w = (Returns tt, w1) ->
  _run stub (S fuel) w = _run stub fuel w1.
Proof.
  intros Hsd Hbody. cbn [_run]. unfold_monad. cbn. rewrite Hsd, Hbody. reflexivity.
Qed.

(** A loop that finds nothing to do for [fuel] iterations only sleeps. *)
Lemma _run_idle (stub : CollectorStub) (pause : Z) (fuel : nat) (w : world) :
  _shutdown (self w) = false ->
  (forall t, _run_body stub
               {| self := self w; calls := calls w; logged := logged w; slept := t |}
             = (Returns tt,
                {| self := self w; calls := calls w; logged := logged w;
                   slept := t + pause |})) ->
  _run stub fuel w =
    (Returns StillRunning,
     {| self := self w; calls := calls w; logged := logged w;
        slept := slept w + pause * Z.of_nat fuel |}).
Proof.
  intros Hsd Hbody. destruct w as [o cs lg t]. cbn in *. revert t.
  induction fuel as [|fuel IH]; intros t.
  - cbn. unfold_monad. do 2 f_equal. lia.
  - rewrite (_run_step stub fuel
               {| self := o; calls := cs; logged := lg; slept := t |} _ Hsd (Hbody t)).
    rewrite IH. do 2 f_equal. lia.
Qed.

(** ** Further properties of the code *)

(** X1. The handler never raises and never sleeps: for every connectivity,
    broker and world it returns, whatever the registration inside it did,
    and the shutdown flag, the channel and the time slept are as before. *)
Theorem handler_never_raises_nor_sleeps (stub : CollectorStub)
    (c : grpc.ChannelConnectivity) (w : world) :
  exists w',
    on_broker_connectivity_change stub c w = (Returns tt, w')
    /\ _shutdown (self w') = _shutdown (self w)
    /\ _channel (self w') = _channel (self w)
    /\ slept w' = slept w.
Proof.
  destruct (decide (ready c)) as [Hc | Hc].
  - destruct (_connected (self w)) eqn:Hconn.
    + destruct (handler_ready_connected stub c w Hc Hconn) as (w' & Hrun & Hself & _ & Hs).
      exists w'. rewrite Hself. auto.
    + destruct (handler_registering stub c w Hc Hconn) as (w' & Hrun & _ & ? & ? & ? & _).
      eauto.
  - destruct (handler_not_ready stub c w Hc)
      as (w' & Hrun & _ & _ & _ & ? & ? & _ & ?).
    eauto.
Qed.

(** X2. On READY or IDLE while unconnected the handler marks the object
    connected whatever the registration did; it marks it registered when
    both requests were answered with a reply and leaves [_registered] as it
    was otherwise. *)
Theorem handler_connects_whatever_registration_does (stub : CollectorStub)
    (c : grpc.ChannelConnectivity) (w : world) :
  c = grpc.READY \/ c = grpc.IDLE -> _connected (self w) = false ->
  exists w',
    on_broker_connectivity_change stub c w = (Returns tt, w')
    /\ _connected (self w') = true
    /\ _registered (self w') =
         match RegisterDatapoints stub (length (calls w)) (request_for "Vehicle.Speed"),
               RegisterDatapoints stub (S (length (calls w)))
                 (request_for "Vehicle.Acceleration") with
         | Returns _, Returns _ => true
         | _, _ => _registered (self w)
         end.
Proof.
  intros Hc Hconn.
  destruct (handler_registering stub c w Hc Hconn) as (w' & Hrun & Hconn' & _ & _ & _ & H).
  cbv zeta in H. exists w'. split; [exact Hrun|]. split; [exact Hconn'|].
  destruct (RegisterDatapoints stub (length (calls w)) _) as [r1 | e1];
    [destruct (RegisterDatapoints stub (S (length (calls w))) _) as [r2 | e2]|];
    destruct H as (_ & _ & H); exact H.
Qed.

Lemma handler_connects_whatever_registration_does_witness :
  (grpc.READY = grpc.READY \/ grpc.READY = grpc.IDLE)
  /\ _connected (self start) = false
  /\ exists w',
       on_broker_connectivity_change broker_down grpc.READY start = (Returns tt, w')
       /\ _connected (self w') = true
       /\ _registered (self w') = false.
Proof.
  split; [left; reflexivity|]. split; [reflexivity|].
  exact (handler_connects_whatever_registration_does broker_down grpc.READY start
           (or_introl eq_refl) eq_refl).
Defined.

(** X3. The supervisor loop never raises and never changes [_connected],
    [_shutdown] or the channel, for any number of iterations and any
    broker: a registration that fails with a fatal error in the loop leaves
    the object connected. *)
Theorem _run_never_changes_connected (stub : CollectorStub) (fuel : nat) (w : world) :
  exists ending w',
    _run stub fuel w = (Returns ending, w')
    /\ _connected (self w') = _connected (self w)
    /\ _shutdown (self w') = _shutdown (self w)
    /\ _channel (self w') = _channel (self w).
Proof.
  revert w. induction fuel as [|fuel IH]; intros w.
  - exists StillRunning, w. repeat split.
  - destruct (_shutdown (self w)) eqn:Hsd.
    + exists Exited, w. rewrite (_run_exits stub fuel w Hsd). repeat split. exact Hsd.
    + destruct (_run_body_run stub w) as (w1 & cs & Hbody & Hc1 & Hs1 & Hch1 & _).
      destruct (IH w1) as (ending & w' & Hrun & Hc & Hs & Hch).
      exists ending, w'. rewrite (_run_step stub fuel w w1 Hsd Hbody).
      split; [exact Hrun|]. rewrite Hc, Hs, Hch, Hc1, Hs1, Hch1, Hsd. auto.
Qed.

(** X4. While the object is unconnected the loop only polls: [fuel]
    iterations send nothing to the broker, log nothing, leave the object as
    it is, registered or not, and sleep 200 ms each. *)
Theorem _run_polls_while_unconnected (stub : CollectorStub) (fuel : nat) (w : world) :
  _shutdown (self w) = false -> _connected (self w) = false ->
  _run stub fuel w =
    (Returns StillRunning,
     {| self := self w; calls := calls w; logged := logged w;
        slept := slept w + 200 * Z.of_nat fuel |}).
Proof.
  intros Hsd Hconn. apply _run_idle; [exact Hsd|].
  intros t. apply (_run_body_unconnected stub
    {| self := self w; calls := calls w; logged := logged w; slept := t |} Hconn).
Qed.

Lemma _run_polls_while_unconnected_witness :
  _shutdown (self start) = false /\ _connected (self start) = false
  /\ _run broker_up 5 start =
       (Returns StillRunning,
        {| self := self start; calls := calls start; logged := logged start;
           slept := slept start + 200 * Z.of_nat 5 |}).
Proof.
  split; [reflexivity|]. split; [reflexivity|].
  exact (_run_polls_while_unconnected broker_up 5 start eq_refl eq_refl).
Defined.

(** X5. Once the object is connected and registered the loop idles:
    [fuel] iterations send nothing to the broker, log nothing, leave the
    object as it is and sleep one second each. *)
Theorem _run_idles_while_registered (stub : CollectorStub) (fuel : nat) (w : world) :
  _shutdown (self w) = false ->
  _connected (self w) = true -> _registered (self w) = true ->
  _run stub fuel w =
    (Returns StillRunning,
     {| self := self w; calls := calls w; logged := logged w;
        slept := slept w + 1000 * Z.of_nat fuel |}).
Proof.
  intros Hsd Hconn Hreg. apply _run_idle; [exact Hsd|].
  intros t. apply (_run_body_registered stub
    {| self := self w; calls := calls w; logged := logged w; slept := t |} Hconn Hreg).
Qed.

Lemma _run_idles_while_registered_witness :
  let w := run broker_up [Notify grpc.READY] start in
  _shutdown (self w) = false /\ _connected (self w) = true /\ _registered (self w) = true
  /\ _run broker_down 4 w =
       (Returns StillRunning,
        {| self := self w; calls := calls w; logged := logged w;
           slept := slept w + 1000 * Z.of_nat 4 |}).
Proof.
  cbv zeta.
  assert (Hs : _shutdown (self (run broker_up [Notify grpc.READY] start)) = false)
    by (vm_compute; reflexivity).
  assert (Hc : _connected (self (run broker_up [Notify grpc.READY] start)) = true)
    by (vm_compute; reflexivity).
  assert (Hr : _registered (self (run broker_up [Notify grpc.READY] start)) = true)
    by (vm_compute; reflexivity).
  split; [exact Hs|]. split; [exact Hc|]. split; [exact Hr|].
  exact (_run_idles_while_registered broker_down 4 _ Hs Hc Hr).
Defined.

(** X6. An iteration of the loop on a connected, unregistered object either
    completes a registration, marks the object registered and does not
    sleep, or stops at the first request that raises, leaves the object
    unregistered and sleeps: three seconds after an RPC error, one second
    after any other exception. *)
Theorem _run_body_backs_off_after_failure (stub : CollectorStub) (w : world) :
  _connected (self w) = true -> _registered (self w) = false ->
  exists w' cs,
    _run_body stub w = (Returns tt, w')
    /\ calls w' = calls w ++ cs
    /\ ((_registered (self w') = true /\ slept w' = slept w
         /\ exists r1 r2,
              cs = [CallRegisterDatapoints (request_for "Vehicle.Speed") (Returns r1);
                    CallRegisterDatapoints (request_for "Vehicle.Acceleration")
                      (Returns r2)])
        \/ (exists request e,
              _registered (self w') = false
              /\ slept w' = slept w + backoff e
              /\ last cs = Some (CallRegisterDatapoints request (Raises e)))).
Proof.
  intros Hconn Hreg.
  destruct (_run_body_registering stub w Hconn Hreg) as (w' & Hrun & _ & _ & _ & H).
  cbv zeta in H.
  destruct (RegisterDatapoints stub (length (calls w)) _) as [r1 | e1];
    [destruct (RegisterDatapoints stub (S (length (calls w))) _) as [r2 | e2]|];
    destruct H as (Hcalls & _ & Hreg' & Hs);
    eexists w', _; (split; [exact Hrun|]); (split; [exact Hcalls|]).
  - left. eauto.
  - right. eexists _, e2. auto.
  - right. eexists _, e1. auto.
Qed.

Lemma _run_body_backs_off_after_failure_witness :
  let w := run broker_down [Notify grpc.READY] start in
  _connected (self w) = true /\ _registered (self w) = false
  /\ exists w' cs,
       _run_body broker_down w = (Returns tt, w')
       /\ calls w' = calls w ++ cs
       /\ ((_registered (self w') = true /\ slept w' = slept w
            /\ exists r1 r2,
                 cs = [CallRegisterDatapoints (request_for "Vehicle.Speed") (Returns r1);
                       CallRegisterDatapoints (request_for "Vehicle.Acceleration")
                         (Returns r2)])
           \/ (exists request e,
                 _registered (self w') = false
                 /\ slept w' = slept w + backoff e
                 /\ last cs = Some (CallRegisterDatapoints request (Raises e)))).
Proof.
  cbv zeta.
  assert (Hc : _connected (self (run broker_down [Notify grpc.READY] start)) = true)
    by (vm_compute; reflexivity).
  assert (Hr : _registered (self (run broker_down [Notify grpc.READY] start)) = false)
    by (vm_compute; reflexivity).
  split; [exact Hc|]. split; [exact Hr|].
  exact (_run_body_backs_off_after_failure broker_down _ Hc Hr).
Defined.

(** X7. Against a broker that fails every registration request with an RPC
    error, [fuel] iterations of the loop on a connected, unregistered object
    send [fuel] requests, one per iteration, and sleep three seconds after
    each; the object stays connected and unregistered and its mapping is
    untouched. *)
Theorem _run_retries_every_three_seconds (stub : CollectorStub) (fuel : nat) (w : world) :
  (forall n request, exists err, RegisterDatapoints stub n request = Raises (RpcError err)) ->
  _shutdown (self w) = false ->
  _connected (self w) = true -> _registered (self w) = false ->
  exists w',
    _run stub fuel w = (Returns StillRunning, w')
    /\ _connected (self w') = true /\ _registered (self w') = false
    /\ _ids (self w') = _ids (self w)
    /\ length (calls w') = (length (calls w) + fuel)%nat
    /\ slept w' = slept w + 3000 * Z.of_nat fuel.
Proof.
  intros Hdown. revert w. induction fuel as [|fuel IH]; intros w Hsd Hconn Hreg.
  - exists w. cbn. unfold_monad. repeat split; auto; lia.
  - destruct (_run_body_registering stub w Hconn Hreg)
      as (w1 & Hbody & Hconn1 & Hsd1 & _ & H).
    cbv zeta in H.
    destruct (Hdown (length (calls w)) (request_for "Vehicle.Speed")) as [err Herr].
    rewrite Herr in H. destruct H as (Hcalls & Hids & Hreg1 & Hs). cbn in Hs.
    destruct (IH w1) as (w' & Hrun & Hconn' & Hreg' & Hids' & Hlen & Hs');
      [congruence | exact Hconn1 | exact Hreg1 |].
    exists w'. rewrite (_run_step stub fuel w w1 Hsd Hbody).
    split; [exact Hrun|]. split; [exact Hconn'|]. split; [exact Hreg'|].
    split; [congruence|]. split.
    + rewrite Hlen, Hcalls, length_app. cbn. lia.
    + rewrite Hs', Hs. lia.
Qed.

Lemma _run_retries_every_three_seconds_witness :
  let w := run broker_down [Notify grpc.READY] start in
  (forall n request,
     exists err, RegisterDatapoints broker_down n request = Raises (RpcError err))
  /\ _shutdown (self w) = false
  /\ _connected (self w) = true /\ _registered (self w) = false
  /\ exists w',
       _run broker_down 3 w = (Returns StillRunning, w')
       /\ _connected (self w') = true /\ _registered (self w') = false
       /\ _ids (self w') = _ids (self w)
       /\ length (calls w') = (length (calls w) + 3)%nat
       /\ slept w' = slept w + 3000 * Z.of_nat 3.
Proof.
  cbv zeta.
  assert (Hdown : forall n request,
            exists err, RegisterDatapoints broker_down n request = Raises (RpcError err))
    by (intros n request; eexists; reflexivity).
  assert (Hs : _shutdown (self (run broker_down [Notify grpc.READY] start)) = false)
    by (vm_compute; reflexivity).
  assert (Hc : _connected (self (run broker_down [Notify grpc.READY] start)) = true)
    by (vm_compute; reflexivity).
  assert (Hr : _registered (self (run broker_down [Notify grpc.READY] start)) = false)
    by (vm_compute; reflexivity).
  split; [exact Hdown|]. split; [exact Hs|]. split; [exact Hc|]. split; [exact Hr|].
  exact (_run_retries_every_three_seconds broker_down 3 _ Hdown Hs Hc Hr).
Defined.

(** X8. When the broker fails the next [k] requests with an RPC error and
    answers every later request with a reply, whatever it did with the
    requests before, [k + 1] iterations of the loop on a connected,
    unregistered object register it: [k] failed requests, three seconds of
    sleep after each, then the two requests of the registration that
    completes. *)
Theorem _run_registers_once_broker_is_back (stub : CollectorStub) (k : nat) (w : world) :
  (forall n request, (length (calls w) <= n < length (calls w) + k)%nat ->
     exists err, RegisterDatapoints stub n request = Raises (RpcError err)) ->
  (forall n request, (length (calls w) + k <= n)%nat ->
     exists reply, RegisterDatapoints stub n request = Returns reply) ->
  _shutdown (self w) = false ->
  _connected (self w) = true -> _registered (self w) = false ->
  exists w',
    _run stub (S k) w = (Returns StillRunning, w')
    /\ _connected (self w') = true /\ _registered (self w') = true
    /\ length (calls w') = (length (calls w) + k + 2)%nat
    /\ slept w' = slept w + 3000 * Z.of_nat k.
Proof.
  revert w. induction k as [|k IH]; intros w Hdown Hup Hsd Hconn Hreg;
    destruct (_run_body_registering stub w Hconn Hreg)
      as (w1 & Hbody & Hconn1 & Hsd1 & _ & H);
    cbv zeta in H; rewrite (_run_step stub _ w w1 Hsd Hbody).
  - destruct (Hup (length (calls w)) (request_for "Vehicle.Speed")) as [r1 Hr1]; [lia|].
    destruct (Hup (S (length (calls w))) (request_for "Vehicle.Acceleration"))
      as [r2 Hr2]; [lia|].
    rewrite Hr1, Hr2 in H. destruct H as (Hcalls & _ & Hreg1 & Hs).
    exists w1. cbn. unfold_monad. split; [reflexivity|].
    split; [exact Hconn1|]. split; [exact Hreg1|]. split.
    + rewrite Hcalls, length_app. cbn. lia.
    + rewrite Hs. lia.
  - destruct (Hdown (length (calls w)) (request_for "Vehicle.Speed")) as [err Herr]; [lia|].
    rewrite Herr in H. destruct H as (Hcalls & _ & Hreg1 & Hs). cbn in Hs.
    assert (Hlen1 : length (calls w1) = S (length (calls w))).
    { rewrite Hcalls, length_app. cbn. lia. }
    destruct (IH w1) as (w' & Hrun & Hconn' & Hreg' & Hlen & Hs').
    + intros n request Hn. apply Hdown. lia.
    + intros n request Hn. apply Hup. lia.
    + congruence.
    + exact Hconn1.
    + exact Hreg1.
    + exists w'. split; [exact Hrun|]. split; [exact Hconn'|]. split; [exact Hreg'|].
      split; lia.
Qed.

Lemma _run_registers_once_broker_is_back_witness :
  let stub := broker_outage 2 5 in
  let w := run stub [Notify grpc.READY; Notify grpc.TRANSIENT_FAILURE; Notify grpc.READY]
             start in
  length (calls w) = 3%nat
  /\ _shutdown (self w) = false
  /\ _connected (self w) = true /\ _registered (self w) = false
  /\ exists w',
       _run stub (S 2) w = (Returns StillRunning, w')
       /\ _connected (self w') = true /\ _registered (self w') = true
       /\ length (calls w') = (length (calls w) + 2 + 2)%nat
       /\ slept w' = slept w + 3000 * Z.of_nat 2.
Proof.
  cbv zeta.
  set (w := run (broker_outage 2 5)
              [Notify grpc.READY; Notify grpc.TRANSIENT_FAILURE; Notify grpc.READY] start).
  assert (Hlen : length (calls w) = 3%nat) by (vm_compute; reflexivity).
  assert (Hs : _shutdown (self w) = false) by (vm_compute; reflexivity).
  assert (Hc : _connected (self w) = true) by (vm_compute; reflexivity).
  assert (Hr : _registered (self w) = false) by (vm_compute; reflexivity).
  split; [exact Hlen|]. split; [exact Hs|]. split; [exact Hc|]. split; [exact Hr|].
  apply (_run_registers_once_broker_is_back (broker_outage 2 5) 2 w); auto.
  - intros n request Hn. rewrite Hlen in Hn.
    exists {| grpc.code := grpc.UNAVAILABLE; grpc.details := EmptyString |}.
    change (RegisterDatapoints (broker_outage 2 5) n request)
      with (if (2 <=? n)%nat && (n <? 5)%nat
            then Raises (rpc_error grpc.UNAVAILABLE) else Returns reply_1_2).
    destruct (Nat.leb_spec 2 n) as [_ | Hlt]; [|lia].
    destruct (Nat.ltb_spec n 5) as [_ | Hge]; [reflexivity | lia].
  - intros n request Hn. rewrite Hlen in Hn. exists reply_1_2.
    change (RegisterDatapoints (broker_outage 2 5) n request)
      with (if (2 <=? n)%nat && (n <? 5)%nat
            then Raises (rpc_error grpc.UNAVAILABLE) else Returns reply_1_2).
    destruct (Nat.ltb_spec n 5) as [Hlt | _]; [lia|].
    rewrite andb_false_r. reflexivity.
Defined.

(** X9. A publish call for a name that the mapping holds sends exactly one
    update, carrying the value under the identifier of the name, whatever
    the connected and registered flags are; it never touches the mapping,
    [_registered], [_shutdown] or the channel.  It returns when the broker
    replies and raises what the broker raised otherwise, and [_connected]
    can change only on an RPC error. *)
Theorem set_float_datapoint_sends_one_update (stub : CollectorStub)
    (name : string) (value : float) (_id : Z) (w : world) :
  _ids (self w) !! name = Some _id ->
  let request := {| datapoints := <[_id := float_value value]> ∅ |} in
  let answer := UpdateDatapoints stub (length (calls w)) request in
  exists result w',
    set_float_datapoint stub name value w = (result, w')
    /\ calls w' = calls w ++ [CallUpdateDatapoints request answer]
    /\ _ids (self w') = _ids (self w)
    /\ _registered (self w') = _registered (self w)
    /\ _shutdown (self w') = _shutdown (self w)
    /\ _channel (self w') = _channel (self w)
    /\ match answer with
       | Returns _ => result = Returns tt /\ _connected (self w') = _connected (self w)
       | Raises e =>
           result = Raises e
           /\ ((forall err, e <> RpcError err) ->
               _connected (self w') = _connected (self w))
       end.
Proof.
  intros Hid request answer.
  pose proof (set_float_datapoint_run stub name value w) as H.
  rewrite Hid in H. cbv zeta in H. fold request in H. fold answer in H.
  destruct H as (w' & Hcalls & Hids & Hreg & Hsd & Hch & H).
  destruct answer as [reply | [err | key | attr | what]]; destruct H as [Hrun Hconn];
    eexists _, w'; (split; [exact Hrun|]); repeat (split; [assumption|]);
    (split; [reflexivity|]); try (intros _; exact Hconn).
  - exact Hconn.
  - intros Hne. exfalso. exact (Hne err eq_refl).
Qed.

Lemma set_float_datapoint_sends_one_update_witness :
  let w := run broker_up [Notify grpc.READY; Notify grpc.TRANSIENT_FAILURE] start in
  let request := {| datapoints := <[1 := float_value 42.5%float]> ∅ |} in
  _ids (self w) !! "Vehicle.Speed" = Some 1
  /\ _connected (self w) = false /\ _registered (self w) = false
  /\ exists result w',
       set_float_datapoint broker_up "Vehicle.Speed" 42.5%float w = (result, w')
       /\ calls w' = calls w ++ [CallUpdateDatapoints request (Returns no_errors)]
       /\ result = Returns tt.
Proof.
  cbv zeta.
  assert (Hid : _ids (self (run broker_up
                  [Notify grpc.READY; Notify grpc.TRANSIENT_FAILURE] start))
                !! "Vehicle.Speed" = Some 1) by (vm_compute; reflexivity).
  split; [exact Hid|]. split; [vm_compute; reflexivity|].
  split; [vm_compute; reflexivity|].
  destruct (set_float_datapoint_sends_one_update broker_up "Vehicle.Speed"
              42.5%float 1 _ Hid) as (result & w' & Hrun & Hcalls & _ & _ & _ & _ & H).
  cbn in H. destruct H as [Hres _].
  exists result, w'. split; [exact Hrun|]. split; [exact Hcalls | exact Hres].
Defined.

(** X10. After a registration that both requests completed, looking up
    Vehicle.Speed gives the identifier of the first reply, looking up
    Vehicle.Acceleration the identifier of the second reply, whatever the
    mapping held for them before, and every other name reads as before. *)
Theorem register_datapoints_then_lookup (stub : CollectorStub) (w : world)
    (r1 r2 : RegisterDatapointsReply) :
  RegisterDatapoints stub (length (calls w)) (request_for "Vehicle.Speed") = Returns r1 ->
  RegisterDatapoints stub (S (length (calls w))) (request_for "Vehicle.Acceleration")
  = Returns r2 ->
  exists w',
    register_datapoints stub w = (Returns tt, w')
    /\ _ids (self w') !! "Vehicle.Speed" = Some (results_getitem r1 "Vehicle.Speed")
    /\ _ids (self w') !! "Vehicle.Acceleration"
       = Some (results_getitem r2 "Vehicle.Acceleration")
    /\ forall name, name <> "Vehicle.Speed" -> name <> "Vehicle.Acceleration" ->
         _ids (self w') !! name = _ids (self w) !! name.
Proof.
  intros H1 H2.
  destruct (register_datapoints_run stub w) as (w' & _ & _ & H). cbv zeta in H.
  rewrite H1, H2 in H. destruct H as (Hrun & _ & Hids).
  exists w'. split; [exact Hrun|]. rewrite Hids. split; [|split].
  - rewrite lookup_insert_ne by discriminate. apply lookup_insert_eq.
  - apply lookup_insert_eq.
  - intros name Hs Ha. rewrite !lookup_insert_ne by congruence. reflexivity.
Qed.

Lemma register_datapoints_then_lookup_witness :
  let w := run broker_up [Notify grpc.READY; Notify grpc.SHUTDOWN] start in
  RegisterDatapoints broker_up (length (calls w)) (request_for "Vehicle.Speed")
  = Returns reply_1_2
  /\ RegisterDatapoints broker_up (S (length (calls w)))
       (request_for "Vehicle.Acceleration") = Returns reply_1_2
  /\ exists w',
       register_datapoints broker_up w = (Returns tt, w')
       /\ _ids (self w') !! "Vehicle.Speed" = Some (results_getitem reply_1_2 "Vehicle.Speed")
       /\ _ids (self w') !! "Vehicle.Acceleration"
          = Some (results_getitem reply_1_2 "Vehicle.Acceleration")
       /\ forall name, name <> "Vehicle.Speed" -> name <> "Vehicle.Acceleration" ->
            _ids (self w') !! name = _ids (self w) !! name.
Proof.
  cbv zeta. split; [reflexivity|]. split; [reflexivity|].
  exact (register_datapoints_then_lookup broker_up _ reply_1_2 reply_1_2 eq_refl eq_refl).
Defined.

(** X11. Registration and publishing compose: when the handler, on READY or
    IDLE while unconnected, completes a registration, a publish call for
    Vehicle.Speed right after it sends its value under the identifier that
    the first reply gave for Vehicle.Speed. *)
Theorem publish_after_registration_uses_registered_identifier
    (stub : CollectorStub) (c : grpc.ChannelConnectivity) (value : float) (w : world)
    (r1 r2 : RegisterDatapointsReply) :
  c = grpc.READY \/ c = grpc.IDLE -> _connected (self w) = false ->
  RegisterDatapoints stub (length (calls w)) (request_for "Vehicle.Speed") = Returns r1 ->
  RegisterDatapoints stub (S (length (calls w))) (request_for "Vehicle.Acceleration")
  = Returns r2 ->
  let w1 := snd (on_broker_connectivity_change stub c w) in
  let request :=
    {| datapoints := <[results_getitem r1 "Vehicle.Speed" := float_value value]> ∅ |} in
  exists result w2 answer,
    set_float_datapoint stub "Vehicle.Speed" value w1 = (result, w2)
    /\ calls w2 =
         calls w ++ [CallRegisterDatapoints (request_for "Vehicle.Speed") (Returns r1);
                     CallRegisterDatapoints (request_for "Vehicle.Acceleration")
                       (Returns r2);
                     CallUpdateDatapoints request answer].
Proof.
  intros Hc Hconn H1 H2 w1 request.
  destruct (handler_registering stub c w Hc Hconn) as (w' & Hrun & _ & _ & _ & _ & H).
  cbv zeta in H. rewrite H1, H2 in H. destruct H as (Hcalls & Hids & _).
  assert (Hw1 : w1 = w') by (unfold w1; rewrite Hrun; reflexivity).
  assert (Hid : _ids (self w1) !! "Vehicle.Speed"
                = Some (results_getitem r1 "Vehicle.Speed")).
  { rewrite Hw1, Hids. rewrite lookup_insert_ne by discriminate.
    apply lookup_insert_eq. }
  pose proof (set_float_datapoint_run stub "Vehicle.Speed" value w1) as Hpub.
  rewrite Hid in Hpub. cbv zeta in Hpub. fold request in Hpub.
  destruct Hpub as (w2 & Hcalls2 & _ & _ & _ & _ & Hres).
  exists (fst (set_float_datapoint stub "Vehicle.Speed" value w1)), w2,
    (UpdateDatapoints stub (length (calls w1)) request).
  split.
  - destruct (UpdateDatapoints stub (length (calls w1)) request)
      as [reply | [err | key | attr | what]]; destruct Hres as [-> _]; reflexivity.
  - rewrite Hcalls2, Hw1, Hcalls, <- app_assoc. reflexivity.
Qed.

Lemma publish_after_registration_uses_registered_identifier_witness :
  let w1 := snd (on_broker_connectivity_change broker_up grpc.READY start) in
  let request := {| datapoints := <[1 := float_value 42.5%float]> ∅ |} in
  exists result w2 answer,
    set_float_datapoint broker_up "Vehicle.Speed" 42.5%float w1 = (result, w2)
    /\ calls w2 =
         calls start
         ++ [CallRegisterDatapoints (request_for "Vehicle.Speed") (Returns reply_1_2);
             CallRegisterDatapoints (request_for "Vehicle.Acceleration")
               (Returns reply_1_2);
             CallUpdateDatapoints request answer].
Proof.
  exact (publish_after_registration_uses_registered_identifier broker_up grpc.READY
           42.5%float start reply_1_2 reply_1_2 (or_introl eq_refl) eq_refl
           eq_refl eq_refl).
Defined.

(** X12. Connecting opens the channel and starts the loop without talking
    to the broker: on an unconnected object [connect_to_databroker] leaves an
    open channel, and as long as no notification arrives its loop sends no
    request, leaves the flags and the mapping as they were and sleeps 200 ms
    per iteration. *)
Theorem connect_to_databroker_opens_and_polls (stub : CollectorStub)
    (fuel : nat) (w : world) :
  _shutdown (self w) = false -> _connected (self w) = false ->
  exists w',
    connect_to_databroker stub fuel w = (Returns StillRunning, w')
    /\ _channel (self w') = Some {| grpc.closed := false |}
    /\ _connected (self w') = false
    /\ _registered (self w') = _registered (self w)
    /\ _ids (self w') = _ids (self w)
    /\ calls w' = calls w
    /\ slept w' = slept w + 200 * Z.of_nat fuel.
Proof.
  intros Hsd Hconn. unfold connect_to_databroker. unfold_monad. cbn.
  match goal with
  | |- context [_run stub fuel ?v] =>
      rewrite (_run_idle stub 200 fuel v);
        [|exact Hsd
         |intros t; apply _run_body_unconnected; exact Hconn]
  end.
  eexists. split; [reflexivity|]. cbn. auto 10.
Qed.

Lemma connect_to_databroker_opens_and_polls_witness :
  _shutdown (self start) = false /\ _connected (self start) = false
  /\ exists w',
       connect_to_databroker broker_up 7 start = (Returns StillRunning, w')
       /\ _channel (self w') = Some {| grpc.closed := false |}
       /\ _connected (self w') = false
       /\ _registered (self w') = _registered (self start)
       /\ _ids (self w') = _ids (self start)
       /\ calls w' = calls start
       /\ slept w' = slept start + 200 * Z.of_nat 7.
Proof.
  split; [reflexivity|]. split; [reflexivity|].
  exact (connect_to_databroker_opens_and_polls broker_up 7 start eq_refl eq_refl).
Defined.

(** X13. In every run of notifications and loop iterations in which each
    handler invocation and each loop iteration runs to its end before the
    next begins and no publish call comes in between, from an object that is
    neither connected nor registered, a registered object is connected. *)
Theorem registered_implies_connected (stub : CollectorStub) (w0 : world)
    (acts : list action) :
  _connected (self w0) = false -> _registered (self w0) = false ->
  Forall supervising acts ->
  _registered (self (run stub acts w0)) = true ->
  _connected (self (run stub acts w0)) = true.
Proof.
  intros Hconn0 Hreg0 Hsup Hreg.
  destruct (supervised_run_invariant stub w0 acts Hconn0 Hreg0 Hsup) as [_ H].
  apply H, Hreg.
Qed.

Lemma registered_implies_connected_witness :
  let acts := [Notify grpc.IDLE; Iterate; Iterate; Iterate] in
  _registered (self (run (broker_down_until 3) acts start)) = true
  /\ _connected (self (run (broker_down_until 3) acts start)) = true.
Proof.
  cbv zeta.
  assert (Hreg : _registered (self (run (broker_down_until 3)
            [Notify grpc.IDLE; Iterate; Iterate; Iterate] start)) = true)
    by (vm_compute; reflexivity).
  split; [exact Hreg|].
  apply (registered_implies_connected (broker_down_until 3) start);
    [reflexivity | reflexivity | | exact Hreg].
  repeat constructor.
Defined.

(** X14. What one action sends to the broker: a notification or a loop
    iteration sends at most two requests, all of them registration
    requests; a publish call sends at most one request, an update; closing
    sends nothing.  What was sent before stays in the history. *)
Theorem perform_sends_at_most_two_requests (stub : CollectorStub)
    (a : action) (w : world) :
  exists cs,
    calls (snd (perform stub a w)) = calls w ++ cs
    /\ match a with
       | Notify _ | Iterate =>
           (length cs <= 2)%nat
           /\ Forall (fun c => exists request answer,
                        c = CallRegisterDatapoints request answer) cs
       | Publish _ _ =>
           (length cs <= 1)%nat
           /\ Forall (fun c => exists request answer,
                        c = CallUpdateDatapoints request answer) cs
       | Close => cs = []
       end.
Proof.
  destruct a as [c | | name value |]; cbn [perform].
  - destruct (decide (ready c)) as [Hc | Hc]; [destruct (_connected (self w)) eqn:Hconn|].
    + destruct (handler_ready_connected stub c w Hc Hconn) as (w' & -> & _ & Hcalls & _).
      exists []. cbn. rewrite Hcalls, app_nil_r. repeat split; [lia | constructor].
    + destruct (handler_registering stub c w Hc Hconn) as (w' & -> & _ & _ & _ & _ & H).
      cbv zeta in H. cbn.
      destruct (RegisterDatapoints stub (length (calls w)) _) as [r1 | e1];
        [destruct (RegisterDatapoints stub (S (length (calls w))) _) as [r2 | e2]|];
        destruct H as (Hcalls & _); eexists; (split; [exact Hcalls|]);
        (split; [cbn; lia | repeat constructor; eauto]).
    + destruct (handler_not_ready stub c w Hc)
        as (w' & -> & _ & _ & _ & _ & _ & Hcalls & _).
      exists []. cbn. rewrite Hcalls, app_nil_r. repeat split; [lia | constructor].
  - destruct (_connected (self w)) eqn:Hconn; [destruct (_registered (self w)) eqn:Hreg|].
    + rewrite (_run_body_registered stub w Hconn Hreg). exists []. cbn.
      rewrite app_nil_r. repeat split; [lia | constructor].
    + destruct (_run_body_registering stub w Hconn Hreg) as (w' & -> & _ & _ & _ & H).
      cbv zeta in H. cbn.
      destruct (RegisterDatapoints stub (length (calls w)) _) as [r1 | e1];
        [destruct (RegisterDatapoints stub (S (length (calls w))) _) as [r2 | e2]|];
        destruct H as (Hcalls & _); eexists; (split; [exact Hcalls|]);
        (split; [cbn; lia | repeat constructor; eauto]).
    + rewrite (_run_body_unconnected stub w Hconn). exists []. cbn.
      rewrite app_nil_r. repeat split; [lia | constructor].
  - pose proof (set_float_datapoint_run stub name value w) as H.
    destruct (_ids (self w) !! name) as [_id|].
    + cbv zeta in H. destruct H as (w' & Hcalls & _ & _ & _ & _ & H).
      destruct (UpdateDatapoints stub _ _) as [reply | [err | key | attr | what]];
        destruct H as [-> _]; eexists; (split; [exact Hcalls|]);
        (split; [cbn; lia | repeat constructor; eauto]).
    + rewrite H. exists []. cbn. rewrite app_nil_r. repeat split; [lia | constructor].
  - pose proof (close_run w) as H. destruct (_channel (self w)).
    + destruct H as (w' & -> & _ & _ & _ & _ & _ & Hcalls).
      exists []. cbn. rewrite Hcalls, app_nil_r. split; reflexivity.
    + rewrite H. exists []. cbn. rewrite app_nil_r. split; reflexivity.
Qed.

(** X15. Every reconnect registers again: from any world, a notification of
    a state other than READY and IDLE followed by one of READY or IDLE makes
    the handler send the two requests of a registration, and when the broker
    answers both with a reply the object is connected and registered and
    holds the identifiers of these replies. *)
Theorem reconnect_registers_again (stub : CollectorStub)
    (c1 c2 : grpc.ChannelConnectivity) (w : world) (r1 r2 : RegisterDatapointsReply) :
  ~ ready c1 -> ready c2 ->
  RegisterDatapoints stub (length (calls w)) (request_for "Vehicle.Speed") = Returns r1 ->
  RegisterDatapoints stub (S (length (calls w))) (request_for "Vehicle.Acceleration")
  = Returns r2 ->
  let w' := run stub [Notify c1; Notify c2] w in
  _connected (self w') = true /\ _registered (self w') = true
  /\ calls w' =
       calls w ++ [CallRegisterDatapoints (request_for "Vehicle.Speed") (Returns r1);
                   CallRegisterDatapoints (request_for "Vehicle.Acceleration")
                     (Returns r2)]
  /\ _ids (self w') =
       <["Vehicle.Acceleration" := results_getitem r2 "Vehicle.Acceleration"]>
         (<["Vehicle.Speed" := results_getitem r1 "Vehicle.Speed"]> (_ids (self w))).
Proof.
  intros Hc1 Hc2 H1 H2 w'. unfold w'. cbn [run perform].
  destruct (handler_not_ready stub c1 w Hc1)
    as (w1 & -> & Hconn1 & _ & Hids1 & _ & _ & Hcalls1 & _).
  cbn [snd].
  destruct (handler_registering stub c2 w1 Hc2 Hconn1)
    as (w2 & -> & Hconn2 & _ & _ & _ & H).
  cbv zeta in H. rewrite Hcalls1, H1, H2, Hids1 in H.
  destruct H as (Hcalls & Hids & Hreg). cbn [snd]. auto.
Qed.

Lemma reconnect_registers_again_witness :
  let w := run broker_up [Notify grpc.READY; Iterate] start in
  let w' := run broker_up [Notify grpc.TRANSIENT_FAILURE; Notify grpc.READY] w in
  ~ ready grpc.TRANSIENT_FAILURE /\ ready grpc.READY
  /\ _connected (self w') = true /\ _registered (self w') = true
  /\ length (calls w) = 2%nat /\ length (calls w') = 4%nat.
Proof.
  cbv zeta.
  assert (Hc1 : ~ ready grpc.TRANSIENT_FAILURE) by (intros [H | H]; discriminate H).
  assert (Hc2 : ready grpc.READY) by (left; reflexivity).
  destruct (reconnect_registers_again broker_up grpc.TRANSIENT_FAILURE grpc.READY
              (run broker_up [Notify grpc.READY; Iterate] start) reply_1_2 reply_1_2
              Hc1 Hc2 eq_refl eq_refl) as (Hconn & Hreg & Hcalls & _).
  split; [exact Hc1|]. split; [exact Hc2|]. split; [exact Hconn|]. split; [exact Hreg|].
  split; [vm_compute; reflexivity|]. rewrite Hcalls, length_app.
  vm_compute. reflexivity.
Defined.
